(** * Magnum Python bindings: the [shaders] module

    A shallow embedding of [src/python/magnum/shaders.cpp], the pybind11 glue
    that exposes [Shaders::VertexColor2D], [Shaders::VertexColor3D] and
    [Shaders::Phong] to Python, together with the properties the
    specification states about it.

    The wrapped engine is not part of the sources.  The binding observes it
    only through [flags()] and [lightCount()] and drives it only through its
    uniform setters, so a native shader object is represented by what the
    binding can see of it: the two construction parameters and the sequence
    of native setter calls it has received. *)

From Stdlib Require Import ZArith Ascii String.
From stdpp Require Import base tactics option list strings pretty gmap.

Local Open Scope string_scope.
Local Open Scope Z_scope.

(** ** Fixed-width integers *)

(** [UnsignedByte(x)]: conversion to an unsigned 8-bit integer. *)
Definition UnsignedByte (x : Z) : Z := x mod 2 ^ 8.

(** [UnsignedInt(x)]: conversion to an unsigned 32-bit integer. *)
Definition UnsignedInt (x : Z) : Z := x mod 2 ^ 32.

(** The values an [UnsignedByte] / [UnsignedInt] variable can hold. *)
Definition is_UnsignedByte (x : Z) : Prop := 0 <= x < 2 ^ 8.
Definition is_UnsignedInt (x : Z) : Prop := 0 <= x < 2 ^ 32.

(** ** Python exceptions *)

Inductive PyExcType : Set :=
| PyExc_AttributeError
| PyExc_ValueError
| PyExc_TypeError.

Global Instance PyExcType_eq_dec : EqDecision PyExcType.
Proof. solve_decision. Defined.

Record PyErr : Set := mkPyErr { exc_type : PyExcType; exc_msg : string }.

(** [PyErr_SetString(type, message)] *)
Definition PyErr_SetString (t : PyExcType) (msg : string) : PyErr :=
  mkPyErr t msg.

(** The part of printf formatting the bindings use: every [%u] of the format
    is replaced by the decimal rendering of the next argument. *)
Fixpoint format_u (fmt : string) (args : list Z) : string :=
  match fmt with
  | EmptyString => EmptyString
  | String c rest =>
      match c, rest, args with
      | "%"%char, String "u"%char rest', a :: args' =>
          pretty a +:+ format_u rest' args'
      | _, _, _ => String c (format_u rest args)
      end
  end.

(** [PyErr_Format(type, format, ...)] *)
Definition PyErr_Format (t : PyExcType) (fmt : string) (args : list Z) : PyErr :=
  mkPyErr t (format_u fmt args).

(** ** Calls into the binding: state and exceptions

    A bound function runs against the native object [Self] it was called
    on.  It either returns a value or leaves with a Python exception
    ([throw py::error_already_set{}]); in both cases the native object is
    left in whatever state the call has brought it to. *)

Inductive Outcome (A : Type) : Type :=
| Return (a : A)
| Raise (e : PyErr).
Arguments Return {A} a.
Arguments Raise {A} e.

Definition M (Self A : Type) : Type := Self -> Outcome A * Self.

Definition ret {Self A} (a : A) : M Self A := fun self => (Return a, self).

Definition bind {Self A B} (m : M Self A) (k : A -> M Self B) : M Self B :=
  fun self =>
    match m self with
    | (Return a, self') => k a self'
    | (Raise e, self') => (Raise e, self')
    end.

(** [throw py::error_already_set{}] with the error indicator set to [e]. *)
Definition throw {Self A} (e : PyErr) : M Self A := fun self => (Raise e, self).

(** Calling a [const] member function of the native object. *)
Definition query {Self A} (f : Self -> A) : M Self A :=
  fun self => (Return (f self), self).

Notation "x <- m ;; k" := (bind m (fun x => k))
  (at level 20, m at level 99, k at level 200, only parsing).

(** ** What the wrapped engine declares

    The types below are declared in the engine's headers, which are not
    part of the sources.  The binding never looks inside a value of these
    types, it only hands it over, so they are left abstract. *)

Class Payload : Type := {
  Float : Type;        (* Magnum::Float *)
  Vector3 : Type;      (* Magnum::Vector3 *)
  Color4 : Type;       (* Magnum::Color4 *)
  Matrix3 : Type;      (* Magnum::Matrix3, 2D transformation *)
  Matrix3x3 : Type;    (* Magnum::Matrix3x3 *)
  Matrix4 : Type       (* Magnum::Matrix4, 3D transformation *)
}.

(** The enumerators of [Shaders::Phong::Flag] that the binding re-exports.
    Their numeric values are fixed by the engine's header; the binding
    refers to them by name only. *)
Module Flag.
Class Values : Type := {
  AmbientTexture : Z;
  DiffuseTexture : Z;
  SpecularTexture : Z;
  NormalTexture : Z;
  AlphaMask : Z;
  VertexColor : Z
}.

(** [Shaders::Phong::Flag{}], exported as [NONE]. *)
Definition NONE : Z := 0.

(** The seven values registered with [py::enum_], in registration order. *)
Definition exposed `{Values} : list (string * Z) :=
  [ ("AMBIENT_TEXTURE", AmbientTexture);
    ("DIFFUSE_TEXTURE", DiffuseTexture);
    ("SPECULAR_TEXTURE", SpecularTexture);
    ("NORMAL_TEXTURE", NormalTexture);
    ("ALPHA_MASK", AlphaMask);
    ("VERTEX_COLOR", VertexColor);
    ("NONE", NONE) ].
End Flag.

(** [Containers::EnumSet]: [operator&] and the contextual conversion to
    [bool] that [operator!] negates. *)
Definition EnumSet_and (a b : Z) : Z := Z.land a b.
Definition EnumSet_bool (a : Z) : bool := negb (a =? 0).

(** The two instantiations of [template<UnsignedInt dimensions>]. *)
Inductive Dimensions : Set := D2 | D3.

Section Native.
Context {P : Payload}.

(** *** [Shaders::Phong] *)

(** The uniform setters of the native Phong shader, as calls. *)
Inductive PhongCall : Type :=
| SetAmbientColor (color : Color4)
| SetDiffuseColor (color : Color4)
| SetSpecularColor (color : Color4)
| SetShininess (shininess : Float)
| SetAlphaMask (mask : Float)
| SetTransformationMatrix (matrix : Matrix4)
| SetNormalMatrix (matrix : Matrix3x3)
| SetProjectionMatrix (matrix : Matrix4)
| SetLightPositions (positions : list Vector3)
| SetLightColors (colors : list Color4).

(** A native Phong shader as the binding sees it: [flags()] and
    [lightCount()], fixed by the constructor, and the setter calls
    received so far, oldest first. *)
Record Phong : Type := mkPhong {
  flags : Z;
  lightCount : Z;
  calls : list PhongCall
}.

(** [Shaders::Phong{flags, lightCount}] *)
Definition Phong_new (flags lightCount : Z) : Phong :=
  mkPhong flags lightCount [].

(** Forwarding one setter call to the native object. *)
Definition native (c : PhongCall) : M Phong unit :=
  fun self => (Return tt, mkPhong (flags self) (lightCount self) (calls self ++ [c])).

(** The shader after it has received the calls [cs], oldest first. *)
Definition forward (cs : list PhongCall) (self : Phong) : Phong :=
  foldl (fun s c => (native c s).2) self cs.

Definition setAmbientColor (color : Color4) := native (SetAmbientColor color).
Definition setDiffuseColor (color : Color4) := native (SetDiffuseColor color).
Definition setSpecularColor (color : Color4) := native (SetSpecularColor color).
Definition setShininess (shininess : Float) := native (SetShininess shininess).
Definition setAlphaMask (mask : Float) := native (SetAlphaMask mask).
Definition setTransformationMatrix (matrix : Matrix4) :=
  native (SetTransformationMatrix matrix).
Definition setNormalMatrix (matrix : Matrix3x3) := native (SetNormalMatrix matrix).
Definition setProjectionMatrix (matrix : Matrix4) :=
  native (SetProjectionMatrix matrix).
Definition setLightPositions (positions : list Vector3) :=
  native (SetLightPositions positions).
Definition setLightColors (colors : list Color4) :=
  native (SetLightColors colors).

(** *** [Shaders::VertexColor<dimensions>] *)

(** [MatrixTypeFor<dimensions, Float>] *)
Definition MatrixTypeFor (dimensions : Dimensions) : Type :=
  match dimensions with D2 => Matrix3 | D3 => Matrix4 end.

Inductive VertexColorCall (dimensions : Dimensions) : Type :=
| SetTransformationProjectionMatrix (matrix : MatrixTypeFor dimensions).

Record VertexColor (dimensions : Dimensions) : Type := mkVertexColor {
  vc_calls : list (VertexColorCall dimensions)
}.
Arguments SetTransformationProjectionMatrix {dimensions} matrix.
Arguments mkVertexColor {dimensions} vc_calls.
Arguments vc_calls {dimensions} v.

(** [Shaders::VertexColor<dimensions>{}] *)
Definition VertexColor_new (dimensions : Dimensions) : VertexColor dimensions :=
  mkVertexColor [].

Definition setTransformationProjectionMatrix {dimensions}
    (matrix : MatrixTypeFor dimensions) : M (VertexColor dimensions) unit :=
  fun self =>
    (Return tt,
     mkVertexColor (vc_calls self ++ [SetTransformationProjectionMatrix matrix])).

(** [std::vector::size()] *)
Definition size {A} (v : list A) : Z := Z.of_nat (length v).

(** ** The Phong binding *)
Section PhongBinding.
Context {F : Flag.Values}.

(** [py::init<Shaders::Phong::Flag, UnsignedInt>()] with
    [py::arg("flags") = Shaders::Phong::Flag{}] and
    [py::arg("light_count") = 1]; an omitted argument is [None]. *)
Definition Phong_init (flags light_count : option Z) : Phong :=
  Phong_new (default Flag.NONE flags) (default 1 light_count).

(** [flags] property: the getter lambda. *)
Definition flags_getter (self : Phong) : Z :=
  UnsignedByte (flags self).

(** [light_count] property: [&Shaders::Phong::lightCount]. *)
Definition light_count_getter (self : Phong) : Z :=
  lightCount self.

(** [alpha_mask] property: the setter lambda. *)
Definition alpha_mask_setter (mask : Float) : M Phong unit :=
  f <- query flags ;;
  if negb (EnumSet_bool (EnumSet_and f Flag.AlphaMask)) then
    throw (PyErr_SetString PyExc_AttributeError
             "the shader was not created with alpha mask enabled")
  else
    setAlphaMask mask.

(** [light_positions] property: the setter lambda. *)
Definition light_positions_setter (positions : list Vector3) : M Phong unit :=
  n <- query lightCount ;;
  if negb (size positions =? n) then
    n' <- query lightCount ;;
    throw (PyErr_Format PyExc_ValueError "expected %u items but got %u"
             [n'; UnsignedInt (size positions)])
  else
    setLightPositions positions.

(** [light_colors] property: the setter lambda. *)
Definition light_colors_setter (colors : list Color4) : M Phong unit :=
  n <- query lightCount ;;
  if negb (size colors =? n) then
    n' <- query lightCount ;;
    throw (PyErr_Format PyExc_ValueError "expected %u items but got %u"
             [n'; UnsignedInt (size colors)])
  else
    setLightColors colors.
End PhongBinding.
End Native.

Arguments SetTransformationProjectionMatrix {_ dimensions} matrix.
Arguments mkVertexColor {_ dimensions} vc_calls.
Arguments vc_calls {_ dimensions} v.

(** ** pybind11: objects, argument conversion, properties *)

Section Python.
Context {P : Payload}.

(** Python values that cross the boundary of this module. *)
#[warnings="-register-all"] Inductive PyObject : Type :=
| PyNone
| PyInt (n : Z)
| PyFlags (f : Z)                 (* an instance of [Phong.Flags] *)
| PyFloat (x : Float)
| PyVector3 (v : Vector3)
| PyColor4 (c : Color4)
| PyMatrix3 (m : Matrix3)
| PyMatrix3x3 (m : Matrix3x3)
| PyMatrix4 (m : Matrix4)
| PyList (items : list PyObject).

(** Argument conversion ([py::detail::type_caster]): a value converts to
    a C++ parameter type when it is an instance of the matching Python
    type; [pybind11/stl.h] converts a list element by element. *)
Definition cast_Float (o : PyObject) : option Float :=
  match o with PyFloat x => Some x | _ => None end.
Definition cast_Vector3 (o : PyObject) : option Vector3 :=
  match o with PyVector3 v => Some v | _ => None end.
Definition cast_Color4 (o : PyObject) : option Color4 :=
  match o with PyColor4 c => Some c | _ => None end.
Definition cast_Matrix3 (o : PyObject) : option Matrix3 :=
  match o with PyMatrix3 m => Some m | _ => None end.
Definition cast_Matrix3x3 (o : PyObject) : option Matrix3x3 :=
  match o with PyMatrix3x3 m => Some m | _ => None end.
Definition cast_Matrix4 (o : PyObject) : option Matrix4 :=
  match o with PyMatrix4 m => Some m | _ => None end.
Definition cast_vector {A} (cast : PyObject -> option A) (o : PyObject)
    : option (list A) :=
  match o with PyList items => mapM cast items | _ => None end.
Definition cast_MatrixTypeFor (dimensions : Dimensions)
    : PyObject -> option (MatrixTypeFor dimensions) :=
  match dimensions with D2 => cast_Matrix3 | D3 => cast_Matrix4 end.

(** A Python [property] object.  [fget] / [fset] are [None] when the
    binding passed [nullptr] for the accessor. *)
Record property (Self : Type) : Type := mkProperty {
  fget : option (Self -> PyObject);
  fset : option (PyObject -> M Self unit);
  doc : string
}.
Arguments mkProperty {Self} fget fset doc.
Arguments fget {Self} p.
Arguments fset {Self} p.
Arguments doc {Self} p.

(** [py::cpp_function] around a C++ setter: convert the argument, then
    call; a value of the wrong type is rejected with [TypeError]. *)
Definition cpp_function {Self A} (cast : PyObject -> option A)
    (f : A -> M Self unit) : PyObject -> M Self unit :=
  fun value =>
    match cast value with
    | Some a => f a
    | None => throw (PyErr_SetString PyExc_TypeError "incompatible function arguments")
    end.

(** [class_::def_property(name, fget, fset, doc)] and
    [class_::def_property_readonly(name, fget, doc)]: store the property
    in the class dictionary. *)
Definition def_property {Self} (name : string)
    (getter : option (Self -> PyObject))
    (setter : option (PyObject -> M Self unit)) (docstring : string)
    (c : gmap string (property Self)) : gmap string (property Self) :=
  <[name := mkProperty getter setter docstring]> c.

Definition def_property_readonly {Self} (name : string)
    (getter : Self -> PyObject) (docstring : string)
    (c : gmap string (property Self)) : gmap string (property Self) :=
  def_property name (Some getter) None docstring c.

(** A class is built by a chain of [.def...] calls on an empty class. *)
Definition chain {Self} (defs : list (gmap string (property Self) ->
                                      gmap string (property Self)))
    : gmap string (property Self) :=
  foldl (fun c def => def c) ∅ defs.

(** Reading and writing an attribute of an instance, as Python's
    property protocol does it. *)
Definition getattr {Self} (c : gmap string (property Self)) (name : string)
    : M Self PyObject :=
  match c !! name with
  | None => throw (PyErr_SetString PyExc_AttributeError "no such attribute")
  | Some p =>
      match fget p with
      | None => throw (PyErr_SetString PyExc_AttributeError "unreadable attribute")
      | Some getter => query getter
      end
  end.

Definition setattr {Self} (c : gmap string (property Self)) (name : string)
    (value : PyObject) : M Self unit :=
  match c !! name with
  | None => throw (PyErr_SetString PyExc_AttributeError "no such attribute")
  | Some p =>
      match fset p with
      | None => throw (PyErr_SetString PyExc_AttributeError "can't set attribute")
      | Some setter => setter value
      end
  end.

(** ** The classes of the module *)

(** [vertexColor<dimensions>(c)]: constructor and the one property. *)
Definition VertexColor_init (dimensions : Dimensions) : VertexColor dimensions :=
  VertexColor_new dimensions.

Definition vertexColor (dimensions : Dimensions)
    : gmap string (property (VertexColor dimensions)) :=
  chain [
    def_property "transformation_projection_matrix" None
      (Some (cpp_function (cast_MatrixTypeFor dimensions)
               setTransformationProjectionMatrix))
      "Transformation and projection matrix"
  ].

Section PhongClass.
Context {F : Flag.Values}.

Definition phong : gmap string (property Phong) :=
  chain [
    def_property_readonly "flags"
      (fun self => PyFlags (flags_getter self)) "Flags";
    def_property_readonly "light_count"
      (fun self => PyInt (light_count_getter self)) "Light count";
    def_property "ambient_color" None
      (Some (cpp_function cast_Color4 setAmbientColor)) "Ambient color";
    def_property "diffuse_color" None
      (Some (cpp_function cast_Color4 setDiffuseColor)) "Diffuse color";
    def_property "specular_color" None
      (Some (cpp_function cast_Color4 setSpecularColor)) "Specular color";
    def_property "shininess" None
      (Some (cpp_function cast_Float setShininess)) "Shininess";
    def_property "alpha_mask" None
      (Some (cpp_function cast_Float alpha_mask_setter)) "Alpha mask";
    def_property "transformation_matrix" None
      (Some (cpp_function cast_Matrix4 setTransformationMatrix))
      "Set transformation matrix";
    def_property "normal_matrix" None
      (Some (cpp_function cast_Matrix3x3 setNormalMatrix)) "Set normal matrix";
    def_property "projection_matrix" None
      (Some (cpp_function cast_Matrix4 setProjectionMatrix))
      "Set projection matrix";
    def_property "light_positions" None
      (Some (cpp_function (cast_vector cast_Vector3) light_positions_setter))
      "Light positions";
    def_property "light_colors" None
      (Some (cpp_function (cast_vector cast_Color4) light_colors_setter))
      "Light colors"
  ].

(** The uniform properties of the Phong class, by name. *)
Definition phong_uniform_properties : list string :=
  [ "ambient_color"; "diffuse_color"; "specular_color"; "shininess";
    "alpha_mask"; "transformation_matrix"; "normal_matrix";
    "projection_matrix"; "light_positions"; "light_colors" ].

(** *** Instances

    The instances alive in the interpreter, by identity.  Every bound
    function receives the one instance it was called on as [self]. *)
Inductive Instance : Type :=
| VertexColor2D (self : VertexColor D2)
| VertexColor3D (self : VertexColor D3)
| PhongShader (self : Phong).

Definition instance_setattr (name : string) (value : PyObject)
    : M Instance unit :=
  fun o =>
    match o with
    | VertexColor2D self =>
        let '(r, self') := setattr (vertexColor D2) name value self in
        (r, VertexColor2D self')
    | VertexColor3D self =>
        let '(r, self') := setattr (vertexColor D3) name value self in
        (r, VertexColor3D self')
    | PhongShader self =>
        let '(r, self') := setattr phong name value self in
        (r, PhongShader self')
    end.

(** [obj.name = value] for the instance with identity [id]; [None] when
    there is no such instance. *)
Definition store_setattr (id : nat) (name : string) (value : PyObject)
    (store : gmap nat Instance) : option (Outcome unit * gmap nat Instance) :=
  match store !! id with
  | None => None
  | Some o =>
      let '(r, o') := instance_setattr name value o in
      Some (r, <[id := o']> store)
  end.

(** Calling a class: a new instance under a fresh identity. *)
Definition store_new (o : Instance) (store : gmap nat Instance)
    : nat * gmap nat Instance :=
  let id := fresh (dom store) in (id, <[id := o]> store).
End PhongClass.
End Python.

Arguments mkProperty {_ Self} fget fset doc.
Arguments fget {_ Self} p.
Arguments fset {_ Self} p.
Arguments doc {_ Self} p.

(** ** The engine's side of a setter call *)

Section Engine.
Context {P : Payload}.

(** Modelled from the spec: what a native uniform setter does to the engine
    is not in the sources.  The spec describes a uniform as a named
    shader-program input (matrix, color, scalar) that a setter sets, so
    the engine state is taken to be one slot per uniform, and a setter call
    stores its argument in the slot of its uniform and touches no other. *)
Definition uniform_of (c : PhongCall) : string :=
  match c with
  | SetAmbientColor _ => "ambientColor"
  | SetDiffuseColor _ => "diffuseColor"
  | SetSpecularColor _ => "specularColor"
  | SetShininess _ => "shininess"
  | SetAlphaMask _ => "alphaMask"
  | SetTransformationMatrix _ => "transformationMatrix"
  | SetNormalMatrix _ => "normalMatrix"
  | SetProjectionMatrix _ => "projectionMatrix"
  | SetLightPositions _ => "lightPositions"
  | SetLightColors _ => "lightColors"
  end.

(** Modelled from the spec: one setter call, seen from the engine. *)
Definition store_uniform (u : gmap string PhongCall) (c : PhongCall)
    : gmap string PhongCall :=
  <[uniform_of c := c]> u.

(** Modelled from the spec: the uniform slots after a sequence of calls. *)
Definition uniforms (self : Phong) : gmap string PhongCall :=
  foldl store_uniform ∅ (calls self).

(** Modelled from the spec: the observable state of a Phong shader, that
    is its construction parameters and the contents of its uniforms. *)
Definition observable (self : Phong) : Z * Z * gmap string PhongCall :=
  (flags self, lightCount self, uniforms self).
End Engine.

(** ** Sample parameters

    Concrete choices for what the engine's headers declare, used to run
    the definitions above on examples. *)

(** Payload values as raw words: a [Float] as its IEEE-754 bit pattern,
    vectors, colours and matrices as their components. *)
Definition raw_payload : Payload :=
  {| Float := Z; Vector3 := Z * Z * Z; Color4 := Z * Z * Z * Z;
     Matrix3 := list Z; Matrix3x3 := list Z; Matrix4 := list Z |}.

(** Enumerator values in the layout of the engine's header: each flag is
    one bit of a byte. *)
Definition sample_flags : Flag.Values :=
  {| Flag.AmbientTexture := Z.shiftl 1 0;
     Flag.DiffuseTexture := Z.shiftl 1 1;
     Flag.SpecularTexture := Z.shiftl 1 2;
     Flag.NormalTexture := Z.shiftl 1 4;
     Flag.AlphaMask := Z.shiftl 1 3;
     Flag.VertexColor := Z.shiftl 1 5 |}.

(** ** Kinds of property *)

Section Access.
Context {P : Payload}.

(** A property that can be both read and written, and one that can only
    be written. *)
Definition read_write {Self} (c : gmap string (property Self)) (name : string)
    : Prop :=
  exists p, c !! name = Some p /\ is_Some (fget p) /\ is_Some (fset p).

Definition write_only {Self} (c : gmap string (property Self)) (name : string)
    : Prop :=
  exists p, c !! name = Some p /\ fget p = None /\ is_Some (fset p).

(** The Python object holding a transformation matrix of the given
    dimension count. *)
Definition PyMatrixFor (dimensions : Dimensions)
    : MatrixTypeFor dimensions -> PyObject :=
  match dimensions with D2 => PyMatrix3 | D3 => PyMatrix4 end.
End Access.

(** ** Programs of property writes *)

Section Programs.
Context {P : Payload} {F : Flag.Values}.

(** A Python program [shader.name1 = value1; shader.name2 = value2; ...]
    on one Phong shader, an exception raised by a statement being caught
    before the next statement runs: the shader the program leaves behind. *)
Definition run_writes (ws : list (string * PyObject)) (self : Phong) : Phong :=
  foldl (fun s w => (setattr phong w.1 w.2 s).2) self ws.

(** A write to a uniform property of Phong with a value of the type its
    setter takes. *)
Inductive PhongWrite : Type :=
| ambient_color (value : Color4)
| diffuse_color (value : Color4)
| specular_color (value : Color4)
| shininess (value : Float)
| alpha_mask (value : Float)
| transformation_matrix (value : Matrix4)
| normal_matrix (value : Matrix3x3)
| projection_matrix (value : Matrix4)
| light_positions (value : list Vector3)
| light_colors (value : list Color4).

(** The property a write names and the Python object it assigns. *)
Definition write_name (w : PhongWrite) : string :=
  match w with
  | ambient_color _ => "ambient_color"
  | diffuse_color _ => "diffuse_color"
  | specular_color _ => "specular_color"
  | shininess _ => "shininess"
  | alpha_mask _ => "alpha_mask"
  | transformation_matrix _ => "transformation_matrix"
  | normal_matrix _ => "normal_matrix"
  | projection_matrix _ => "projection_matrix"
  | light_positions _ => "light_positions"
  | light_colors _ => "light_colors"
  end.

Definition write_value (w : PhongWrite) : PyObject :=
  match w with
  | ambient_color c | diffuse_color c | specular_color c => PyColor4 c
  | shininess x | alpha_mask x => PyFloat x
  | transformation_matrix m | projection_matrix m => PyMatrix4 m
  | normal_matrix m => PyMatrix3x3 m
  | light_positions l => PyList (PyVector3 <$> l)
  | light_colors l => PyList (PyColor4 <$> l)
  end.

(** [shader.name = value] for a typed write. *)
Definition perform (w : PhongWrite) : M Phong unit :=
  setattr phong (write_name w) (write_value w).

(** The native call a write stands for. *)
Definition write_call (w : PhongWrite) : PhongCall :=
  match w with
  | ambient_color c => SetAmbientColor c
  | diffuse_color c => SetDiffuseColor c
  | specular_color c => SetSpecularColor c
  | shininess x => SetShininess x
  | alpha_mask x => SetAlphaMask x
  | transformation_matrix m => SetTransformationMatrix m
  | normal_matrix m => SetNormalMatrix m
  | projection_matrix m => SetProjectionMatrix m
  | light_positions l => SetLightPositions l
  | light_colors l => SetLightColors l
  end.

(** The condition under which a write is let through, stated from the
    construction parameters alone: the [AlphaMask] flag for [alpha_mask],
    a length equal to the light count for the two light sequences, nothing
    for the other seven properties. *)
Definition admitted (flags lightCount : Z) (w : PhongWrite) : bool :=
  match w with
  | alpha_mask _ => negb (Z.land flags Flag.AlphaMask =? 0)
  | light_positions l => size l =? lightCount
  | light_colors l => size l =? lightCount
  | _ => true
  end.

(** A shader rebuilt from what the read-only properties of [self] report. *)
Definition rebuilt (self : Phong) : Phong :=
  Phong_init (Some (flags_getter self)) (Some (light_count_getter self)).
End Programs.

(** * Properties *)

(** ** Auxiliary facts *)

Lemma append_empty_r (s : string) : s +:+ "" = s.
Proof.
  induction s as [|c s IH]; [reflexivity|].
  change (String c s +:+ "") with (String c (s +:+ "")). by rewrite IH.
Qed.

(** The message of the size check, spelled out. *)
Lemma format_u_size_mismatch (expected got : Z) :
  format_u "expected %u items but got %u" [expected; got]
  = "expected " +:+ pretty expected +:+ " items but got " +:+ pretty got.
Proof.
  cbn [format_u]. rewrite (append_empty_r (pretty got)). reflexivity.
Qed.

Lemma UnsignedInt_id (x : Z) : is_UnsignedInt x -> UnsignedInt x = x.
Proof. unfold is_UnsignedInt, UnsignedInt. intros Hx. by apply Z.mod_small. Qed.

Lemma UnsignedByte_id (x : Z) : is_UnsignedByte x -> UnsignedByte x = x.
Proof. unfold is_UnsignedByte, UnsignedByte. intros Hx. by apply Z.mod_small. Qed.

Lemma UnsignedByte_range (x : Z) : is_UnsignedByte (UnsignedByte x).
Proof. unfold is_UnsignedByte, UnsignedByte. by apply Z.mod_pos_bound. Qed.

(** [x & (1 << b)] is zero exactly when bit [b] of [x] is clear. *)
Lemma land_single_bit (x b : Z) :
  0 <= b -> Z.land x (Z.shiftl 1 b) = 0 <-> Z.testbit x b = false.
Proof.
  intros Hb. rewrite Z.shiftl_1_l. split.
  - intros Hz.
    assert (Hbit : Z.testbit (Z.land x (2 ^ b)) b = false)
      by (rewrite Hz; apply Z.bits_0).
    rewrite Z.land_spec, Z.pow2_bits_true, andb_true_r in Hbit by done. done.
  - intros Hx. apply Z.bits_inj'. intros i Hi.
    rewrite Z.land_spec, Z.bits_0.
    destruct (decide (b = i)) as [<-|Hne].
    + by rewrite Hx.
    + by rewrite (Z.pow2_bits_false b i), andb_false_r.
Qed.

(** Looking a property up in a class built by [chain]. *)

Ltac class_lookup :=
  unfold phong, vertexColor, chain; cbn [foldl];
  unfold def_property_readonly, def_property;
  repeat (rewrite lookup_insert_ne by done);
  rewrite lookup_insert_eq.

Section Properties.
Context {P : Payload} {F : Flag.Values}.

Implicit Types (self : Phong) (mask : Float).
Implicit Types (positions : list Vector3) (colors : list Color4).

(** *** The three guarded setters, case by case *)

Lemma alpha_mask_setter_raise self mask :
  EnumSet_and (flags self) Flag.AlphaMask = 0 ->
  alpha_mask_setter mask self
  = (Raise (mkPyErr PyExc_AttributeError
              "the shader was not created with alpha mask enabled"), self).
Proof.
  intros Hz. unfold alpha_mask_setter, bind, query. cbn beta iota.
  unfold EnumSet_bool. rewrite Hz. reflexivity.
Qed.

Lemma alpha_mask_setter_return self mask :
  EnumSet_and (flags self) Flag.AlphaMask <> 0 ->
  alpha_mask_setter mask self
  = (Return tt, mkPhong (flags self) (lightCount self)
                  (calls self ++ [SetAlphaMask mask])).
Proof.
  intros Hnz. unfold alpha_mask_setter, bind, query. cbn beta iota.
  unfold EnumSet_bool. apply Z.eqb_neq in Hnz. rewrite Hnz. reflexivity.
Qed.

Lemma light_positions_setter_raise self positions :
  size positions <> lightCount self ->
  light_positions_setter positions self
  = (Raise (PyErr_Format PyExc_ValueError "expected %u items but got %u"
              [lightCount self; UnsignedInt (size positions)]), self).
Proof.
  intros Hne. unfold light_positions_setter, bind, query. cbn beta iota.
  apply Z.eqb_neq in Hne. rewrite Hne. reflexivity.
Qed.

Lemma light_positions_setter_return self positions :
  size positions = lightCount self ->
  light_positions_setter positions self
  = (Return tt, mkPhong (flags self) (lightCount self)
                  (calls self ++ [SetLightPositions positions])).
Proof.
  intros Heq. unfold light_positions_setter, bind, query. cbn beta iota.
  apply Z.eqb_eq in Heq. rewrite Heq. reflexivity.
Qed.

Lemma light_colors_setter_raise self colors :
  size colors <> lightCount self ->
  light_colors_setter colors self
  = (Raise (PyErr_Format PyExc_ValueError "expected %u items but got %u"
              [lightCount self; UnsignedInt (size colors)]), self).
Proof.
  intros Hne. unfold light_colors_setter, bind, query. cbn beta iota.
  apply Z.eqb_neq in Hne. rewrite Hne. reflexivity.
Qed.

Lemma light_colors_setter_return self colors :
  size colors = lightCount self ->
  light_colors_setter colors self
  = (Return tt, mkPhong (flags self) (lightCount self)
                  (calls self ++ [SetLightColors colors])).
Proof.
  intros Heq. unfold light_colors_setter, bind, query. cbn beta iota.
  apply Z.eqb_eq in Heq. rewrite Heq. reflexivity.
Qed.

(** A shader constructed with [f] and [k] that has then received the calls
    [cs] answers [f] and [k] to [flags()] and [lightCount()], and every
    shader value is of this form. *)
Lemma forward_calls (cs : list PhongCall) self :
  forward cs self = mkPhong (flags self) (lightCount self) (calls self ++ cs).
Proof.
  revert self. induction cs as [|c cs IH]; intros [f n done_calls].
  - cbn. by rewrite app_nil_r.
  - unfold forward in *. cbn [foldl]. rewrite IH.
    cbn. by rewrite <- app_assoc.
Qed.

Lemma forward_Phong_init (f : Z) (light_count : option Z) (cs : list PhongCall) :
  forward cs (Phong_init (Some f) light_count) = mkPhong f (default 1 light_count) cs.
Proof. by rewrite forward_calls. Qed.

Lemma Phong_history self :
  self = forward (calls self)
           (Phong_init (Some (flags self)) (Some (lightCount self))).
Proof. rewrite forward_Phong_init. by destruct self. Qed.

(** No forwarded call changes what [flags()] and [lightCount()] return. *)
Lemma native_preserves c self :
  flags (native c self).2 = flags self
  /\ lightCount (native c self).2 = lightCount self.
Proof. done. Qed.

(** ** Size check of [light_positions] and [light_colors] *)

(** C1, as amended.  Take a Phong shader constructed with
    [light_count = n > 0], at any point of its life.  Given any sequence of
    light positions, or of light colors, whose length is not [n], the
    setter raises [ValueError] with a message that names [n] and the length
    it was given converted to [UnsignedInt], that is reduced modulo 2^32;
    this is the length itself whenever the length is below 2^32.  The
    setter returns the shader as it was: no call has been forwarded to the
    native object. *)
Theorem light_setters_reject_wrong_length (f : option Z) (n : Z)
    (cs : list PhongCall) positions colors :
  0 < n ->
  size positions <> n ->
  size colors <> n ->
  let self := forward cs (Phong_init f (Some n)) in
  light_positions_setter positions self
  = (Raise (mkPyErr PyExc_ValueError
              ("expected " +:+ pretty n +:+ " items but got "
               +:+ pretty (size positions mod 2 ^ 32))), self)
  /\ light_colors_setter colors self
     = (Raise (mkPyErr PyExc_ValueError
                 ("expected " +:+ pretty n +:+ " items but got "
                  +:+ pretty (size colors mod 2 ^ 32))), self)
  /\ (size positions < 2 ^ 32 -> size positions mod 2 ^ 32 = size positions)
  /\ (size colors < 2 ^ 32 -> size colors mod 2 ^ 32 = size colors)
  /\ calls (light_positions_setter positions self).2 = cs
  /\ calls (light_colors_setter colors self).2 = cs.
Proof.
  intros _ Hp Hc self.
  assert (Hn : lightCount self = n /\ calls self = cs)
    by (unfold self; by rewrite forward_calls).
  destruct Hn as [Hn Hcs].
  assert (Hsmall : forall A (l : list A),
            size l < 2 ^ 32 -> size l mod 2 ^ 32 = size l).
  { intros A l Hl. apply Z.mod_small. unfold size in *. lia. }
  rewrite light_positions_setter_raise, light_colors_setter_raise by by rewrite Hn.
  unfold PyErr_Format. rewrite !format_u_size_mismatch, Hn.
  unfold UnsignedInt. auto 10.
Qed.

(** ** Capability check of [alpha_mask] *)

(** C2.  Let [AlphaMask] be the flag of bit [b], and take a Phong shader
    constructed with the flags [f], at any point of its life.  Writing
    [alpha_mask] raises exactly when bit [b] is clear in [f], and what it
    raises then is [AttributeError]; when the bit is set the write returns
    normally after one native call, [setAlphaMask(mask)]. *)
Theorem alpha_mask_requires_flag (f b : Z) (light_count : option Z)
    (cs : list PhongCall) mask :
  0 <= b -> Flag.AlphaMask = Z.shiftl 1 b ->
  let self := forward cs (Phong_init (Some f) light_count) in
  ((exists e self', alpha_mask_setter mask self = (Raise e, self'))
   <-> Z.testbit f b = false)
  /\ (Z.testbit f b = false ->
      exists msg, alpha_mask_setter mask self
                  = (Raise (mkPyErr PyExc_AttributeError msg), self))
  /\ (Z.testbit f b = true ->
      alpha_mask_setter mask self = (Return tt, forward [SetAlphaMask mask] self)).
Proof.
  intros Hb HA self.
  assert (Hf : flags self = f) by (unfold self; by rewrite forward_calls).
  pose proof (land_single_bit f b Hb) as Hbit. rewrite <- HA, <- Hf in Hbit.
  rewrite forward_calls, <- Hf.
  split; [split|split].
  - intros (e & s' & Hraise).
    destruct (Z.testbit (flags self) b) eqn:Hset; [|done].
    rewrite alpha_mask_setter_return in Hraise; [done|].
    unfold EnumSet_and. rewrite Hbit. done.
  - intros Hclear. rewrite alpha_mask_setter_raise by by apply Hbit. eauto.
  - intros Hclear. rewrite alpha_mask_setter_raise by by apply Hbit. eauto.
  - intros Hset. apply alpha_mask_setter_return.
    unfold EnumSet_and. rewrite Hbit, Hset. done.
Qed.

(** ** Failing calls leave the shader alone *)

(** C5.  A guarded setter that raises hands back the shader it was given:
    the state is the same and no native call has been added to it. *)
Theorem guarded_setter_failure_is_atomic self self' (e : PyErr)
    mask positions colors :
  alpha_mask_setter mask self = (Raise e, self')
  \/ light_positions_setter positions self = (Raise e, self')
  \/ light_colors_setter colors self = (Raise e, self') ->
  self' = self /\ calls self' = calls self.
Proof.
  assert (Hsame : self' = self -> self' = self /\ calls self' = calls self)
    by (by intros ->).
  intros [Hraise|[Hraise|Hraise]]; apply Hsame.
  - destruct (decide (EnumSet_and (flags self) Flag.AlphaMask = 0)) as [Hz|Hnz].
    + rewrite alpha_mask_setter_raise in Hraise by done. congruence.
    + rewrite alpha_mask_setter_return in Hraise by done. congruence.
  - destruct (decide (size positions = lightCount self)) as [Heq|Hne].
    + rewrite light_positions_setter_return in Hraise by done. congruence.
    + rewrite light_positions_setter_raise in Hraise by done. congruence.
  - destruct (decide (size colors = lightCount self)) as [Heq|Hne].
    + rewrite light_colors_setter_return in Hraise by done. congruence.
    + rewrite light_colors_setter_raise in Hraise by done. congruence.
Qed.

(** ** The two kinds of error *)

(** C10.  When the capability check fails the caller gets [AttributeError]
    with the fixed message; when a size check fails the caller gets
    [ValueError] with the message formatted from
    ["expected %u items but got %u"]; the two exception types differ. *)
Theorem guard_errors_are_distinguishable self1 self2 mask positions colors :
  EnumSet_and (flags self1) Flag.AlphaMask = 0 ->
  size positions <> lightCount self2 ->
  size colors <> lightCount self2 ->
  exists e1 e2 e3,
    alpha_mask_setter mask self1 = (Raise e1, self1)
    /\ light_positions_setter positions self2 = (Raise e2, self2)
    /\ light_colors_setter colors self2 = (Raise e3, self2)
    /\ e1 = mkPyErr PyExc_AttributeError
              "the shader was not created with alpha mask enabled"
    /\ e2 = mkPyErr PyExc_ValueError
              (format_u "expected %u items but got %u"
                 [lightCount self2; UnsignedInt (size positions)])
    /\ e3 = mkPyErr PyExc_ValueError
              (format_u "expected %u items but got %u"
                 [lightCount self2; UnsignedInt (size colors)])
    /\ exc_type e1 <> exc_type e2
    /\ exc_type e1 <> exc_type e3.
Proof.
  intros Hz Hp Hc. eexists _, _, _.
  rewrite alpha_mask_setter_raise, light_positions_setter_raise,
    light_colors_setter_raise by done.
  unfold PyErr_Format. repeat split; done.
Qed.

Lemma phong_flags_property :
  phong !! "flags"
  = Some (mkProperty (Some (fun self => PyFlags (flags_getter self))) None "Flags").
Proof. by class_lookup. Qed.

Lemma phong_light_count_property :
  phong !! "light_count"
  = Some (mkProperty (Some (fun self => PyInt (light_count_getter self))) None
            "Light count").
Proof. by class_lookup. Qed.

(** ** Reading back the construction parameters *)

Lemma lor_UnsignedByte (a b : Z) :
  is_UnsignedByte a -> is_UnsignedByte b -> is_UnsignedByte (Z.lor a b).
Proof.
  unfold is_UnsignedByte. intros Ha Hb.
  assert (Hnn : 0 <= Z.lor a b) by (apply Z.lor_nonneg; lia).
  split; [done|].
  apply (Z.bounded_iff_bits_nonneg 8); [lia|done|].
  intros i Hi. rewrite Z.lor_spec.
  rewrite (proj1 (Z.bounded_iff_bits_nonneg 8 a ltac:(lia) ltac:(lia))) by lia.
  rewrite (proj1 (Z.bounded_iff_bits_nonneg 8 b ltac:(lia) ltac:(lia))) by lia.
  done.
Qed.

(** The getter reports the low byte of the native flag word. *)
Lemma flags_getter_bits self (i : Z) :
  Z.testbit (flags_getter self) i = (i <? 8) && Z.testbit (flags self) i.
Proof. unfold flags_getter, UnsignedByte. by apply Z.testbit_mod_pow2. Qed.

Lemma flags_getter_exact_iff self :
  0 <= flags self ->
  flags_getter self = flags self
  <-> (forall i, Z.testbit (flags self) i = true -> i < 8).
Proof.
  intros Hnn. split.
  - intros Heq i Hi.
    rewrite <- Heq, flags_getter_bits in Hi.
    apply andb_true_iff in Hi as [Hlt _]. by apply Z.ltb_lt.
  - intros Hbits. apply UnsignedByte_id. split; [done|].
    apply (Z.bounded_iff_bits_nonneg 8); [lia|done|].
    intros i Hi. destruct (Z.testbit (flags self) i) eqn:Hset; [|done].
    apply Hbits in Hset. lia.
Qed.

Lemma foldr_lor_UnsignedByte (fs : list Z) :
  Forall is_UnsignedByte fs -> is_UnsignedByte (foldr Z.lor Flag.NONE fs).
Proof.
  induction 1 as [|g fs Hg _ IH]; cbn [foldr].
  - unfold is_UnsignedByte, Flag.NONE. lia.
  - by apply lor_UnsignedByte.
Qed.

(** C3.  Read immediately after construction, [flags] returns the flag set
    the shader was constructed with, for every value [f] of the byte-sized
    flag type.  In particular every bitwise OR of individual flags is read
    back as that OR, [AmbientTexture | DiffuseTexture] among them. *)
Theorem flags_read_back (f : Z) (light_count : option Z) :
  is_UnsignedByte f ->
  flags_getter (Phong_init (Some f) light_count) = f
  /\ getattr phong "flags" (Phong_init (Some f) light_count)
     = (Return (PyFlags f), Phong_init (Some f) light_count)
  /\ (forall fs : list Z,
        Forall is_UnsignedByte fs ->
        flags_getter (Phong_init (Some (foldr Z.lor Flag.NONE fs)) light_count)
        = foldr Z.lor Flag.NONE fs)
  /\ (is_UnsignedByte Flag.AmbientTexture ->
      is_UnsignedByte Flag.DiffuseTexture ->
      flags_getter (Phong_init (Some (Z.lor Flag.AmbientTexture Flag.DiffuseTexture))
                      light_count)
      = Z.lor Flag.AmbientTexture Flag.DiffuseTexture).
Proof.
  intros Hf.
  assert (Hget : forall g, is_UnsignedByte g ->
            flags_getter (Phong_init (Some g) light_count) = g).
  { intros g Hg. unfold flags_getter, Phong_init, Phong_new. cbn [default flags].
    by apply UnsignedByte_id. }
  split; [by apply Hget|]. split; [|split].
  - unfold getattr. rewrite phong_flags_property. cbn [fget].
    unfold query. by rewrite Hget.
  - intros fs Hfs. by apply Hget, foldr_lor_UnsignedByte.
  - intros Ha Hd. by apply Hget, lor_UnsignedByte.
Qed.

(** C4.  Read immediately after construction with [light_count = k > 0],
    [light_count] returns [k]; with the arguments left out the shader is
    built with one light and with the empty flag set. *)
Theorem light_count_read_back (f : option Z) (k : Z) :
  0 < k ->
  light_count_getter (Phong_init f (Some k)) = k
  /\ getattr phong "light_count" (Phong_init f (Some k))
     = (Return (PyInt k), Phong_init f (Some k))
  /\ Phong_init None None = Phong_new Flag.NONE 1
  /\ light_count_getter (Phong_init f None) = 1
  /\ flags (Phong_init None (Some k)) = Flag.NONE
  /\ (forall i, Z.testbit Flag.NONE i = false).
Proof.
  intros _. split; [reflexivity|]. split.
  { unfold getattr. by rewrite phong_light_count_property. }
  repeat (split; [reflexivity|]). intros i. apply Z.bits_0.
Qed.

(** C9.  The [flags] getter passes the native flag word through
    [UnsignedByte]: it reports bits 0 to 7 of the word and nothing above.
    For a shader just constructed with a (non-negative) flag word [f], the
    value read back is [f] exactly when every set bit of [f] is one of bits
    0 to 7; this is the case for each of the seven exported flag values,
    their enumerators being values of the byte-sized flag type. *)
Theorem flags_getter_reports_low_byte self (f : Z) (light_count : option Z) :
  0 <= f ->
  Forall (fun entry => is_UnsignedByte entry.2) Flag.exposed ->
  flags_getter self = Z.land (flags self) 255
  /\ (forall i, Z.testbit (flags_getter self) i
                = (i <? 8) && Z.testbit (flags self) i)
  /\ (flags_getter (Phong_init (Some f) light_count) = f
      <-> (forall i, Z.testbit f i = true -> i < 8))
  /\ Forall (fun entry =>
               flags_getter (Phong_init (Some entry.2) light_count) = entry.2
               /\ (forall i, Z.testbit entry.2 i = true -> i < 8))
       Flag.exposed.
Proof.
  intros Hf Hexposed. split; [|split; [|split]].
  - unfold flags_getter, UnsignedByte.
    change 255 with (Z.ones 8). by rewrite Z.land_ones.
  - apply flags_getter_bits.
  - by apply (flags_getter_exact_iff (Phong_init (Some f) light_count)).
  - eapply Forall_impl; [exact Hexposed|]. intros [name v] [Hnn Hlt].
    cbn [snd] in *.
    assert (Hget : flags_getter (Phong_init (Some v) light_count) = v)
      by (by apply UnsignedByte_id).
    split; [done|].
    by apply (flags_getter_exact_iff (Phong_init (Some v) light_count)).
Qed.

(** ** Uniform properties have no getter *)

Lemma mapM_cast_Vector3 positions :
  mapM cast_Vector3 (PyVector3 <$> positions) = Some positions.
Proof.
  induction positions as [|v positions IH]; [done|].
  cbn. rewrite IH. done.
Qed.

Lemma mapM_cast_Color4 colors :
  mapM cast_Color4 (PyColor4 <$> colors) = Some colors.
Proof.
  induction colors as [|c colors IH]; [done|].
  cbn. rewrite IH. done.
Qed.

Lemma cast_PyMatrixFor (dimensions : Dimensions) (matrix : MatrixTypeFor dimensions) :
  cast_MatrixTypeFor dimensions (PyMatrixFor dimensions matrix) = Some matrix.
Proof. by destruct dimensions. Qed.

(** Reading a property without a getter raises and changes nothing. *)
Lemma getattr_write_only {Self} (c : gmap string (property Self)) name (o : Self) :
  write_only c name ->
  getattr c name o
  = (Raise (mkPyErr PyExc_AttributeError "unreadable attribute"), o).
Proof.
  intros (p & Hp & Hget & _). unfold getattr. by rewrite Hp, Hget.
Qed.

Lemma write_only_not_read_write {Self} (c : gmap string (property Self)) name :
  write_only c name -> ~ read_write c name.
Proof.
  intros (p & Hp & Hget & _) (p' & Hp' & [g Hg] & _).
  rewrite Hp in Hp'. injection Hp' as <-. congruence.
Qed.

Lemma vertexColor_write_only (dimensions : Dimensions) :
  write_only (vertexColor dimensions) "transformation_projection_matrix".
Proof. eexists. split; [by class_lookup|]. by split. Qed.

Lemma phong_uniforms_write_only :
  Forall (write_only phong) phong_uniform_properties.
Proof.
  unfold phong_uniform_properties.
  repeat (apply Forall_cons; split;
          [eexists; split; [by class_lookup|]; by split|]).
  apply Forall_nil_2.
Qed.

(** C6, as amended.  Every uniform property is write-only.  It is
    registered with a setter and without a getter, so reading it raises
    [AttributeError] and leaves the shader as it was; writing it runs the
    registered setter, which is the native setter itself except for the
    three guarded properties, whose setter forwards after its check. *)
Theorem uniform_properties_are_write_only :
  (forall dimensions,
     write_only (vertexColor dimensions) "transformation_projection_matrix"
     /\ (forall o, getattr (vertexColor dimensions)
                     "transformation_projection_matrix" o
                   = (Raise (mkPyErr PyExc_AttributeError "unreadable attribute"), o))
     /\ (forall matrix,
           setattr (vertexColor dimensions) "transformation_projection_matrix"
             (PyMatrixFor dimensions matrix)
           = setTransformationProjectionMatrix matrix))
  /\ Forall (fun name =>
               write_only phong name
               /\ forall self, getattr phong name self
                    = (Raise (mkPyErr PyExc_AttributeError "unreadable attribute"),
                       self))
       phong_uniform_properties
  /\ (forall c, setattr phong "ambient_color" (PyColor4 c) = setAmbientColor c)
  /\ (forall c, setattr phong "diffuse_color" (PyColor4 c) = setDiffuseColor c)
  /\ (forall c, setattr phong "specular_color" (PyColor4 c) = setSpecularColor c)
  /\ (forall x, setattr phong "shininess" (PyFloat x) = setShininess x)
  /\ (forall mask, setattr phong "alpha_mask" (PyFloat mask) = alpha_mask_setter mask)
  /\ (forall m, setattr phong "transformation_matrix" (PyMatrix4 m)
                = setTransformationMatrix m)
  /\ (forall m, setattr phong "normal_matrix" (PyMatrix3x3 m) = setNormalMatrix m)
  /\ (forall m, setattr phong "projection_matrix" (PyMatrix4 m)
                = setProjectionMatrix m)
  /\ (forall positions,
        setattr phong "light_positions" (PyList (PyVector3 <$> positions))
        = light_positions_setter positions)
  /\ (forall colors,
        setattr phong "light_colors" (PyList (PyColor4 <$> colors))
        = light_colors_setter colors).
Proof.
  split.
  { intros d. split; [apply vertexColor_write_only|]. split.
    - intros o. apply getattr_write_only, vertexColor_write_only.
    - intros m. unfold setattr. class_lookup. cbn [fset].
      unfold cpp_function. by rewrite cast_PyMatrixFor. }
  split.
  { eapply Forall_impl; [apply phong_uniforms_write_only|].
    intros name Hw. split; [done|]. intros self. by apply getattr_write_only. }
  repeat split; intros x; unfold setattr; class_lookup; cbn [fset];
    unfold cpp_function, cast_vector;
    rewrite ?mapM_cast_Vector3, ?mapM_cast_Color4; reflexivity.
Qed.

(** ** Instances do not share state *)

Lemma store_setattr_other (store store' : gmap nat Instance) (i j : nat)
    name value (r : Outcome unit) :
  i <> j ->
  store_setattr i name value store = Some (r, store') ->
  store' !! j = store !! j.
Proof.
  intros Hne. unfold store_setattr.
  destruct (store !! i) as [o|]; [|done].
  destruct (instance_setattr name value o) as [r' o'].
  intros [= _ <-]. by apply lookup_insert_ne.
Qed.

(** Two instances created one after the other have different identities,
    and creating the second leaves the first as it is. *)
Lemma store_new_distinct (store : gmap nat Instance) (o1 o2 : Instance) :
  let '(i, store1) := store_new o1 store in
  let '(j, store2) := store_new o2 store1 in
  i <> j /\ store2 !! i = Some o1 /\ store2 !! j = Some o2.
Proof.
  unfold store_new. cbv zeta.
  set (i := fresh (dom store)).
  set (j := fresh (dom (<[i := o1]> store))).
  assert (Hne : i <> j).
  { intros Heq. apply (is_fresh (dom (<[i := o1]> store))).
    fold j. rewrite <- Heq. apply elem_of_dom. rewrite lookup_insert_eq. eauto. }
  split; [done|]. split.
  - rewrite lookup_insert_ne by done. apply lookup_insert_eq.
  - apply lookup_insert_eq.
Qed.

(** C7.  In a store holding a [VertexColor2D] and a [VertexColor3D]
    instance, setting [transformation_projection_matrix] on either one
    returns normally, records the native call on that instance and leaves
    the other instance as it was.  More generally a property write on one
    instance, whatever its outcome, leaves every other instance as it was. *)
Theorem shader_instances_are_independent (store : gmap nat Instance)
    (id2d id3d : nat) (a : VertexColor D2) (b : VertexColor D3)
    (m3 : Matrix3) (m4 : Matrix4) :
  store !! id2d = Some (VertexColor2D a) ->
  store !! id3d = Some (VertexColor3D b) ->
  let call2d := SetTransformationProjectionMatrix (m3 : MatrixTypeFor D2) in
  let call3d := SetTransformationProjectionMatrix (m4 : MatrixTypeFor D3) in
  let a' := mkVertexColor (vc_calls a ++ [call2d]) in
  let b' := mkVertexColor (vc_calls b ++ [call3d]) in
  store_setattr id2d "transformation_projection_matrix" (PyMatrix3 m3) store
  = Some (Return tt, <[id2d := VertexColor2D a']> store)
  /\ <[id2d := VertexColor2D a']> store !! id3d = Some (VertexColor3D b)
  /\ store_setattr id3d "transformation_projection_matrix" (PyMatrix4 m4) store
     = Some (Return tt, <[id3d := VertexColor3D b']> store)
  /\ <[id3d := VertexColor3D b']> store !! id2d = Some (VertexColor2D a)
  /\ (forall i j name value r store',
        i <> j ->
        store_setattr i name value store = Some (r, store') ->
        store' !! j = store !! j).
Proof.
  intros Ha Hb call2d call3d a' b'.
  assert (Hne : id2d <> id3d) by congruence.
  assert (Hset2 : setattr (vertexColor D2) "transformation_projection_matrix"
                    (PyMatrix3 m3) a = (Return tt, a')).
  { unfold setattr. class_lookup. reflexivity. }
  assert (Hset3 : setattr (vertexColor D3) "transformation_projection_matrix"
                    (PyMatrix4 m4) b = (Return tt, b')).
  { unfold setattr. class_lookup. reflexivity. }
  split; [|split; [|split; [|split]]].
  - unfold store_setattr. rewrite Ha. unfold instance_setattr. by rewrite Hset2.
  - by rewrite lookup_insert_ne.
  - unfold store_setattr. rewrite Hb. unfold instance_setattr. by rewrite Hset3.
  - by rewrite lookup_insert_ne.
  - intros i j name value r store' Hij. by apply store_setattr_other.
Qed.

(** ** Writing [alpha_mask] repeatedly *)

Lemma uniforms_snoc (f k : Z) (cs : list PhongCall) (c : PhongCall) :
  uniforms (mkPhong f k (cs ++ [c])) = store_uniform (uniforms (mkPhong f k cs)) c.
Proof. unfold uniforms. cbn [calls]. by rewrite foldl_app. Qed.

Lemma uniforms_repeated (f k : Z) (cs : list PhongCall) (c : PhongCall) (n : nat) :
  uniforms (mkPhong f k (cs ++ replicate (S n) c))
  = store_uniform (uniforms (mkPhong f k cs)) c.
Proof.
  induction n as [|n IH]; [apply uniforms_snoc|].
  rewrite replicate_S_end, app_assoc, uniforms_snoc, IH.
  unfold store_uniform. apply insert_insert_eq.
Qed.

Lemma alpha_mask_setter_iter self mask (n : nat) :
  EnumSet_and (flags self) Flag.AlphaMask <> 0 ->
  Nat.iter n (fun s => (alpha_mask_setter mask s).2) self
  = mkPhong (flags self) (lightCount self)
      (calls self ++ replicate n (SetAlphaMask mask)).
Proof.
  intros Hnz. induction n as [|n IH].
  - destruct self. cbn. by rewrite app_nil_r.
  - cbn [Nat.iter nat_rect]. unfold Nat.iter in IH. rewrite IH.
    rewrite alpha_mask_setter_return by done. cbn [snd flags lightCount calls].
    by rewrite replicate_S_end, app_assoc.
Qed.

(** C8.  Let [AlphaMask] be the flag of bit [b], and take a Phong shader
    constructed with flags [f] that have this bit set, at any point of its
    life.  Every write of [alpha_mask] returns normally, and writing the
    same value twice, or any number of times more, leaves the shader in the
    same observable state as writing it once. *)
Theorem alpha_mask_is_idempotent (f b : Z) (light_count : option Z)
    (cs : list PhongCall) mask (n : nat) :
  0 <= b -> Flag.AlphaMask = Z.shiftl 1 b ->
  Z.testbit f b = true ->
  let self := forward cs (Phong_init (Some f) light_count) in
  let set := fun s => (alpha_mask_setter mask s).2 in
  (alpha_mask_setter mask (Nat.iter n set self)).1 = Return tt
  /\ observable (set (set self)) = observable (set self)
  /\ observable (Nat.iter (S n) set self) = observable (set self).
Proof.
  intros Hb HA Hset self set.
  assert (Hnz : EnumSet_and (flags self) Flag.AlphaMask <> 0).
  { unfold self. rewrite forward_Phong_init. cbn [flags].
    unfold EnumSet_and. rewrite HA. intros Hz.
    apply land_single_bit in Hz; [congruence|done]. }
  assert (Hiter : forall m,
            observable (Nat.iter (S m) set self) = observable (set self)).
  { intros m. change (set self) with (Nat.iter 1 set self). unfold set.
    rewrite !alpha_mask_setter_iter by done.
    unfold observable. cbn [flags lightCount].
    by rewrite (uniforms_repeated _ _ _ _ m), (uniforms_repeated _ _ _ _ 0). }
  split; [|split].
  - unfold set. rewrite alpha_mask_setter_iter by done.
    by rewrite alpha_mask_setter_return.
  - apply (Hiter 1%nat).
  - apply Hiter.
Qed.

End Properties.

(** * The properties on sample shaders *)

Section Examples.
Local Existing Instance raw_payload.
Local Existing Instance sample_flags.

(** A shader with two lights given one position and three colors. *)
Lemma light_setters_reject_wrong_length_witness :
  let self := Phong_init None (Some 2) in
  let positions : list Vector3 := [(0, 0, 0)] in
  let colors : list Color4 := [(1, 0, 0, 1); (0, 1, 0, 1); (0, 0, 1, 1)] in
  0 < 2
  /\ size positions <> 2
  /\ size colors <> 2
  /\ light_positions_setter positions self
     = (Raise (mkPyErr PyExc_ValueError "expected 2 items but got 1"), self)
  /\ light_colors_setter colors self
     = (Raise (mkPyErr PyExc_ValueError "expected 2 items but got 3"), self)
  /\ calls (light_positions_setter positions self).2 = [].
Proof.
  intros self positions colors.
  assert (Hp : size positions <> 2) by (vm_compute; lia).
  assert (Hc : size colors <> 2) by (vm_compute; lia).
  assert (Hn : 0 < 2) by lia.
  destruct (light_setters_reject_wrong_length (P := raw_payload) None 2 []
              positions colors Hn Hp Hc)
    as (Epos & Ecol & _ & _ & Ecalls & _).
  split; [exact Hn|]. split; [exact Hp|]. split; [exact Hc|].
  split; [exact Epos|]. split; [exact Ecol|exact Ecalls].
Defined.

(** What the size check answers to a sequence of 2^32 + 2 items on a
    shader with two lights, whatever the items are. *)
Lemma light_positions_setter_long (positions : list Vector3) :
  size positions = 2 ^ 32 + 2 ->
  light_positions_setter positions (Phong_init None (Some 2))
  = (Raise (mkPyErr PyExc_ValueError "expected 2 items but got 2"),
     Phong_init None (Some 2)).
Proof.
  intros Hsize. rewrite light_positions_setter_raise.
  - unfold PyErr_Format. rewrite Hsize. reflexivity.
  - rewrite Hsize. discriminate.
Qed.

(** C1 as stated fails: a sequence of 4294967298 positions given to a
    shader with two lights is rejected, but the message reports 2 items,
    not the number supplied. *)
Lemma light_setters_long_sequence_counterexample :
  let self := Phong_init None (Some 2) in
  let positions : list Vector3 := replicate (Z.to_nat (2 ^ 32 + 2)) (0, 0, 0) in
  size positions = 4294967298
  /\ size positions <> 2
  /\ light_positions_setter positions self
     = (Raise (mkPyErr PyExc_ValueError "expected 2 items but got 2"), self)
  /\ light_positions_setter positions self
     <> (Raise (mkPyErr PyExc_ValueError "expected 2 items but got 4294967298"),
         self).
Proof.
  assert (Hnn : 0 <= 2 ^ 32 + 2) by discriminate.
  intros self positions.
  assert (Hsize : size positions = 2 ^ 32 + 2).
  { unfold positions, size. rewrite length_replicate. exact (Z2Nat.id _ Hnn). }
  assert (Hraise := light_positions_setter_long positions Hsize).
  split; [exact Hsize|]. split; [rewrite Hsize; discriminate|].
  split; [exact Hraise|].
  unfold self. rewrite Hraise. discriminate.
Qed.

(** A shader built with [ALPHA_MASK | AMBIENT_TEXTURE] accepts the write,
    one built with [AMBIENT_TEXTURE] alone refuses it. *)
Lemma alpha_mask_requires_flag_witness :
  let with_mask := Phong_init (Some (Z.lor Flag.AlphaMask Flag.AmbientTexture)) None in
  let without := Phong_init (Some Flag.AmbientTexture) None in
  0 <= 3 /\ Flag.AlphaMask = Z.shiftl 1 3
  /\ Z.testbit (Z.lor Flag.AlphaMask Flag.AmbientTexture) 3 = true
  /\ Z.testbit Flag.AmbientTexture 3 = false
  /\ alpha_mask_setter (5 : Float) with_mask
     = (Return tt, mkPhong 9 1 [SetAlphaMask (5 : Float)])
  /\ exists msg, alpha_mask_setter (5 : Float) without
                 = (Raise (mkPyErr PyExc_AttributeError msg), without).
Proof.
  intros with_mask without.
  assert (Hb : 0 <= 3) by lia.
  assert (HA : Flag.AlphaMask = Z.shiftl 1 3) by reflexivity.
  assert (Hset : Z.testbit (Z.lor Flag.AlphaMask Flag.AmbientTexture) 3 = true)
    by reflexivity.
  assert (Hclear : Z.testbit Flag.AmbientTexture 3 = false) by reflexivity.
  destruct (alpha_mask_requires_flag (P := raw_payload) (F := sample_flags)
              (Z.lor Flag.AlphaMask Flag.AmbientTexture) 3 None [] 5 Hb HA)
    as (_ & _ & Hok).
  destruct (alpha_mask_requires_flag (P := raw_payload) (F := sample_flags)
              Flag.AmbientTexture 3 None [] 5 Hb HA)
    as (_ & Hraise & _).
  split; [exact Hb|]. split; [exact HA|]. split; [exact Hset|].
  split; [exact Hclear|]. split; [exact (Hok Hset)|exact (Hraise Hclear)].
Defined.

(** [AMBIENT_TEXTURE | DIFFUSE_TEXTURE] is read back unchanged. *)
Lemma flags_read_back_witness :
  let f := Z.lor Flag.AmbientTexture Flag.DiffuseTexture in
  is_UnsignedByte f
  /\ flags_getter (Phong_init (Some f) (Some 2)) = 3
  /\ getattr phong "flags" (Phong_init (Some f) (Some 2))
     = (Return (PyFlags 3), Phong_init (Some f) (Some 2)).
Proof.
  intros f.
  assert (Hf : is_UnsignedByte f) by (vm_compute; split; [discriminate|reflexivity]).
  destruct (flags_read_back (P := raw_payload) (F := sample_flags)
              f (Some 2) Hf) as (Hget & Hattr & _).
  split; [exact Hf|]. split; [exact Hget|exact Hattr].
Defined.

Lemma light_count_read_back_witness :
  0 < 4
  /\ light_count_getter (Phong_init (Some Flag.VertexColor) (Some 4)) = 4
  /\ getattr phong "light_count" (Phong_init (Some Flag.VertexColor) (Some 4))
     = (Return (PyInt 4), Phong_init (Some Flag.VertexColor) (Some 4))
  /\ light_count_getter (Phong_init (Some Flag.VertexColor) None) = 1.
Proof.
  assert (Hk : 0 < 4) by lia.
  destruct (light_count_read_back (P := raw_payload) (F := sample_flags)
              (Some Flag.VertexColor) 4 Hk)
    as (Hget & Hattr & _ & Hdefault & _).
  split; [exact Hk|]. split; [exact Hget|]. split; [exact Hattr|exact Hdefault].
Defined.

(** A shader built without [ALPHA_MASK] refuses the write and is unchanged. *)
Lemma guarded_setter_failure_is_atomic_witness :
  let self := mkPhong Flag.DiffuseTexture 1 [SetShininess (80 : Float)] in
  let e := mkPyErr PyExc_AttributeError
             "the shader was not created with alpha mask enabled" in
  alpha_mask_setter (5 : Float) self = (Raise e, self)
  /\ calls self = [SetShininess (80 : Float)].
Proof.
  intros self e.
  assert (Hraise : alpha_mask_setter (5 : Float) self = (Raise e, self))
    by reflexivity.
  destruct (guarded_setter_failure_is_atomic (P := raw_payload) (F := sample_flags)
              self self e 5 [] []
              (or_introl Hraise)) as [_ Hcalls].
  split; [exact Hraise|exact Hcalls].
Defined.

(** A 2D and a 3D shader created one after the other, as instances 0 and 1. *)
Lemma shader_instances_are_independent_witness :
  let a := VertexColor_init D2 in
  let b := VertexColor_init D3 in
  let store := (store_new (VertexColor3D b)
                  (store_new (VertexColor2D a) ∅).2).2 in
  let m3 : Matrix3 := [1; 0; 0; 0; 1; 0; 0; 0; 1] in
  store !! 0%nat = Some (VertexColor2D a)
  /\ store !! 1%nat = Some (VertexColor3D b)
  /\ store_setattr 0 "transformation_projection_matrix" (PyMatrix3 m3) store
     = Some (Return tt,
             <[0%nat := VertexColor2D
                          (mkVertexColor
                             [SetTransformationProjectionMatrix
                                (m3 : MatrixTypeFor D2)])]> store)
  /\ <[0%nat := VertexColor2D
                  (mkVertexColor
                     [SetTransformationProjectionMatrix (m3 : MatrixTypeFor D2)])]>
       store !! 1%nat = Some (VertexColor3D b).
Proof.
  intros a b store m3.
  assert (Ha : store !! 0%nat = Some (VertexColor2D a)) by (vm_compute; reflexivity).
  assert (Hb : store !! 1%nat = Some (VertexColor3D b)) by (vm_compute; reflexivity).
  destruct (shader_instances_are_independent (P := raw_payload) (F := sample_flags)
              store 0 1 a b m3 [] Ha Hb)
    as (Hset & Hother & _).
  split; [exact Ha|]. split; [exact Hb|]. split; [exact Hset|exact Hother].
Defined.

(** Writing the same mask four times and once, after another setter call. *)
Lemma alpha_mask_is_idempotent_witness :
  let self := forward [SetShininess (80 : Float)]
                (Phong_init (Some Flag.AlphaMask) (Some 1)) in
  let set := fun s => (alpha_mask_setter (5 : Float) s).2 in
  0 <= 3 /\ Flag.AlphaMask = Z.shiftl 1 3
  /\ Z.testbit Flag.AlphaMask 3 = true
  /\ observable (set (set self)) = observable (set self)
  /\ observable (Nat.iter 4 set self) = observable (set self).
Proof.
  intros self set.
  assert (Hb : 0 <= 3) by lia.
  assert (HA : Flag.AlphaMask = Z.shiftl 1 3) by reflexivity.
  assert (Hset : Z.testbit Flag.AlphaMask 3 = true) by reflexivity.
  destruct (alpha_mask_is_idempotent (P := raw_payload) (F := sample_flags)
              Flag.AlphaMask 3 (Some 1) [SetShininess (P := raw_payload) 80]
              5 3 Hb HA Hset)
    as (_ & Htwice & Hmany).
  split; [exact Hb|]. split; [exact HA|]. split; [exact Hset|].
  split; [exact Htwice|exact Hmany].
Defined.

(** A flag word with bit 8 set loses that bit on the way out. *)
Lemma flags_getter_reports_low_byte_witness :
  let self := Phong_new (Z.lor (Z.shiftl 1 8) Flag.AlphaMask) 1 in
  0 <= 264
  /\ Forall (fun entry => is_UnsignedByte entry.2) Flag.exposed
  /\ flags self = 264
  /\ flags_getter self = Z.land 264 255
  /\ Forall (fun entry =>
               flags_getter (Phong_init (Some entry.2) None) = entry.2
               /\ (forall i, Z.testbit entry.2 i = true -> i < 8))
       Flag.exposed.
Proof.
  intros self.
  assert (Hf : 0 <= 264) by lia.
  assert (Hexposed : Forall (fun entry => is_UnsignedByte entry.2) Flag.exposed).
  { unfold Flag.exposed, is_UnsignedByte. repeat apply Forall_cons_2;
      [..|apply Forall_nil_2]; vm_compute; (split; [discriminate|reflexivity]). }
  destruct (flags_getter_reports_low_byte (P := raw_payload) (F := sample_flags)
              self 264 None Hf Hexposed)
    as (Hland & _ & _ & Hall).
  split; [exact Hf|]. split; [exact Hexposed|]. split; [reflexivity|].
  split; [exact Hland|exact Hall].
Defined.

Lemma guard_errors_are_distinguishable_witness :
  let self := Phong_init None (Some 2) in
  let positions : list Vector3 := [] in
  let colors : list Color4 := [(1, 1, 1, 1)] in
  EnumSet_and (flags self) Flag.AlphaMask = 0
  /\ size positions <> lightCount self
  /\ size colors <> lightCount self
  /\ exists e1 e2 e3,
       alpha_mask_setter (5 : Float) self = (Raise e1, self)
       /\ light_positions_setter positions self = (Raise e2, self)
       /\ light_colors_setter colors self = (Raise e3, self)
       /\ exc_type e1 = PyExc_AttributeError
       /\ exc_type e2 = PyExc_ValueError
       /\ exc_type e3 = PyExc_ValueError.
Proof.
  intros self positions colors.
  assert (Hz : EnumSet_and (flags self) Flag.AlphaMask = 0) by reflexivity.
  assert (Hp : size positions <> lightCount self) by (vm_compute; lia).
  assert (Hc : size colors <> lightCount self) by (vm_compute; lia).
  destruct (guard_errors_are_distinguishable (P := raw_payload) (F := sample_flags)
              self self 5
              positions colors Hz Hp Hc)
    as (e1 & e2 & e3 & H1 & H2 & H3 & -> & -> & -> & _).
  split; [exact Hz|]. split; [exact Hp|]. split; [exact Hc|].
  eexists _, _, _.
  split; [exact H1|]. split; [exact H2|]. split; [exact H3|].
  split; [reflexivity|]. split; reflexivity.
Defined.

(** C6 as stated fails: [ambient_color] cannot be read.  The attempt raises
    [AttributeError], and the property is not a read/write property. *)
Lemma uniform_property_read_counterexample :
  let self := Phong_init None None in
  getattr phong "ambient_color" self
  = (Raise (mkPyErr PyExc_AttributeError "unreadable attribute"), self)
  /\ ~ read_write phong "ambient_color"
  /\ ~ Forall (read_write phong) phong_uniform_properties.
Proof.
  intros self.
  assert (Hw : write_only phong "ambient_color").
  { eexists. split; [by class_lookup|]. by split. }
  split; [by apply getattr_write_only|].
  split; [by apply write_only_not_read_write|].
  intros Hall. apply Forall_cons_1 in Hall as [Hrw _].
  by apply (write_only_not_read_write _ _ Hw).
Qed.

End Examples.

(** * Further properties of the binding *)

Section Further.
Context {P : Payload} {F : Flag.Values}.

Implicit Types (self : Phong) (mask : Float).
Implicit Types (positions : list Vector3) (colors : list Color4).

(** ** One bound call does one thing *)

(** A call is atomic when it either raises and hands back the shader
    untouched, or returns after forwarding exactly one native call. *)
Local Abbreviation atomic m :=
  (forall self, (exists e, m self = (Raise e, self))
                \/ (exists c, m self = (Return tt, forward [c] self))).

Lemma native_atomic (c : PhongCall) : atomic (native c).
Proof. intros self. right. by exists c. Qed.

Lemma throw_atomic (e : PyErr) : atomic (throw (A := unit) e).
Proof. intros self. left. by exists e. Qed.

Lemma forward_one (c : PhongCall) self :
  forward [c] self = mkPhong (flags self) (lightCount self) (calls self ++ [c]).
Proof. apply forward_calls. Qed.

Lemma alpha_mask_setter_atomic mask : atomic (alpha_mask_setter mask).
Proof.
  intros self.
  destruct (decide (EnumSet_and (flags self) Flag.AlphaMask = 0)) as [Hz|Hnz].
  - left. rewrite alpha_mask_setter_raise by done. eauto.
  - right. rewrite alpha_mask_setter_return, <- forward_one by done. eauto.
Qed.

Lemma light_positions_setter_atomic positions :
  atomic (light_positions_setter positions).
Proof.
  intros self. destruct (decide (size positions = lightCount self)) as [Heq|Hne].
  - right. rewrite light_positions_setter_return, <- forward_one by done. eauto.
  - left. rewrite light_positions_setter_raise by done. eauto.
Qed.

Lemma light_colors_setter_atomic colors : atomic (light_colors_setter colors).
Proof.
  intros self. destruct (decide (size colors = lightCount self)) as [Heq|Hne].
  - right. rewrite light_colors_setter_return, <- forward_one by done. eauto.
  - left. rewrite light_colors_setter_raise by done. eauto.
Qed.

Lemma cpp_function_atomic {A} (cast : PyObject -> option A)
    (f : A -> M Phong unit) (value : PyObject) :
  (forall a, atomic (f a)) -> atomic (cpp_function cast f value).
Proof.
  intros Hf. unfold cpp_function. destruct (cast value) as [a|].
  - apply Hf.
  - apply throw_atomic.
Qed.

(** Every setter registered in the Phong class is atomic. *)
Lemma phong_setters_atomic (name : string) (p : property Phong)
    (setter : PyObject -> M Phong unit) (value : PyObject) :
  phong !! name = Some p -> fset p = Some setter -> atomic (setter value).
Proof.
  unfold phong, chain. cbn [foldl]. unfold def_property_readonly, def_property.
  repeat (rewrite lookup_insert; case_decide;
          [intros [= <-] [= <-];
           apply cpp_function_atomic; intros a;
           first [apply native_atomic | apply alpha_mask_setter_atomic
                 | apply light_positions_setter_atomic
                 | apply light_colors_setter_atomic]
          | ]).
  repeat (rewrite lookup_insert; case_decide; [by intros [= <-] |]).
  by rewrite lookup_empty.
Qed.

Lemma setattr_phong_atomic (name : string) (value : PyObject) :
  atomic (setattr phong name value).
Proof.
  unfold setattr. destruct (phong !! name) as [p|] eqn:Hp; [|apply throw_atomic].
  destruct (fset p) as [setter|] eqn:Hset; [|apply throw_atomic].
  by apply (phong_setters_atomic name p).
Qed.

Lemma forward_app (cs1 cs2 : list PhongCall) self :
  forward (cs1 ++ cs2) self = forward cs2 (forward cs1 self).
Proof. unfold forward. apply foldl_app. Qed.

(** X1.  Whatever attribute of a Phong shader is assigned and whatever the
    value, the assignment either raises and leaves the shader as it was,
    or returns after forwarding exactly one call to the native object. *)
Theorem property_write_is_atomic (name : string) (value : PyObject) self
    (r : Outcome unit) self' :
  setattr phong name value self = (r, self') ->
  match r with
  | Raise _ => self' = self
  | Return _ => exists c, self' = forward [c] self
  end.
Proof.
  intros Hrun.
  destruct (setattr_phong_atomic name value self) as [[e He]|[c Hc]].
  - rewrite He in Hrun. by injection Hrun as <- <-.
  - rewrite Hc in Hrun. injection Hrun as <- <-. by exists c.
Qed.

(** ** What a program of writes cannot change *)

Lemma run_writes_forward (ws : list (string * PyObject)) self :
  exists cs, run_writes ws self = forward cs self
             /\ (length cs <= length ws)%nat.
Proof.
  revert self. induction ws as [|[name value] ws IH]; intros self.
  - exists []. split; [done|]. cbn. lia.
  - change (run_writes ((name, value) :: ws) self)
      with (run_writes ws (setattr phong name value self).2).
    destruct (setattr_phong_atomic name value self) as [[e ->]|[c ->]];
      cbn [snd].
    + destruct (IH self) as (cs & -> & Hlen). exists cs. split; [done|].
      cbn [length]. lia.
    + destruct (IH (forward [c] self)) as (cs & -> & Hlen).
      exists (c :: cs). split; [by rewrite <- forward_app|]. cbn [length]. lia.
Qed.

(** X2.  A program of attribute assignments, however long and whether its
    statements succeed or fail, amounts to forwarding at most one native
    call per statement; afterwards [flags] and [light_count] still report
    the construction parameters. *)
Theorem writes_keep_construction_parameters (f : Z) (light_count : option Z)
    (ws : list (string * PyObject)) :
  let built := Phong_init (Some f) light_count in
  let self := run_writes ws built in
  (exists cs, self = forward cs built /\ (length cs <= length ws)%nat)
  /\ getattr phong "flags" self = (Return (PyFlags (UnsignedByte f)), self)
  /\ getattr phong "light_count" self
     = (Return (PyInt (default 1 light_count)), self).
Proof.
  intros built self.
  destruct (run_writes_forward ws built) as (cs & Hcs & Hlen).
  split; [by exists cs|].
  assert (Hself : self = mkPhong f (default 1 light_count) cs)
    by (unfold self; rewrite Hcs; apply forward_Phong_init).
  unfold getattr. rewrite phong_flags_property, phong_light_count_property.
  cbn [fget]. unfold query, flags_getter, light_count_getter.
  by rewrite Hself.
Qed.

(** X3.  [flags] and [light_count] are read-only in every state of the
    shader: reading returns the value and leaves the shader as it was,
    assigning any value raises [AttributeError] and leaves it as it was. *)
Theorem construction_parameters_are_read_only self (value : PyObject) :
  getattr phong "flags" self = (Return (PyFlags (UnsignedByte (flags self))), self)
  /\ getattr phong "light_count" self = (Return (PyInt (lightCount self)), self)
  /\ (exists msg, setattr phong "flags" value self
                  = (Raise (mkPyErr PyExc_AttributeError msg), self))
  /\ (exists msg, setattr phong "light_count" value self
                  = (Raise (mkPyErr PyExc_AttributeError msg), self)).
Proof.
  unfold getattr, setattr.
  rewrite phong_flags_property, phong_light_count_property. cbn [fget fset].
  repeat split; eauto.
Qed.

(** ** The size check, both ways *)

(** X4.  A light setter returns exactly when the sequence has
    [lightCount()] items, and then it has forwarded the whole sequence,
    unchanged, in one native call; it raises exactly when the length
    differs. *)
Theorem light_setters_accept_exact_length self positions colors :
  (light_positions_setter positions self
   = (Return tt, forward [SetLightPositions positions] self)
   <-> size positions = lightCount self)
  /\ ((exists e, light_positions_setter positions self = (Raise e, self))
      <-> size positions <> lightCount self)
  /\ (light_colors_setter colors self
      = (Return tt, forward [SetLightColors colors] self)
      <-> size colors = lightCount self)
  /\ ((exists e, light_colors_setter colors self = (Raise e, self))
      <-> size colors <> lightCount self).
Proof.
  rewrite !forward_one.
  destruct (decide (size positions = lightCount self)) as [Hp|Hp];
    destruct (decide (size colors = lightCount self)) as [Hc|Hc];
    rewrite ?(light_positions_setter_return _ _ Hp),
      ?(light_positions_setter_raise _ _ Hp),
      ?(light_colors_setter_return _ _ Hc),
      ?(light_colors_setter_raise _ _ Hc);
    repeat split; try done; eauto; try (by intros [e [=]]).
Qed.

(** X5.  A shader may be constructed with no lights at all.  Its light
    setters accept the empty sequence and nothing else; and a shader with
    lights rejects the empty sequence, reporting that it got 0 items. *)
Theorem zero_lights_and_empty_sequences (f : option Z) (n : Z)
    positions colors :
  n <> 0 ->
  let none := Phong_init f (Some 0) in
  let some := Phong_init f (Some n) in
  ((exists self', light_positions_setter positions none = (Return tt, self'))
   <-> positions = [])
  /\ ((exists self', light_colors_setter colors none = (Return tt, self'))
      <-> colors = [])
  /\ light_positions_setter [] some
     = (Raise (mkPyErr PyExc_ValueError
                 ("expected " +:+ pretty n +:+ " items but got 0")), some)
  /\ light_colors_setter [] some
     = (Raise (mkPyErr PyExc_ValueError
                 ("expected " +:+ pretty n +:+ " items but got 0")), some).
Proof.
  intros Hn none some.
  assert (Hempty : forall A (l : list A), size l = 0 <-> l = []).
  { intros A l. unfold size. destruct l; [done|]. cbn [length]. split; [lia|done]. }
  split; [|split].
  - rewrite <- Hempty. split.
    + intros [self' Hret].
      destruct (decide (size positions = 0)) as [Hz|Hnz]; [done|].
      by rewrite light_positions_setter_raise in Hret.
    + intros Hz. rewrite light_positions_setter_return by done. eauto.
  - rewrite <- Hempty. split.
    + intros [self' Hret].
      destruct (decide (size colors = 0)) as [Hz|Hnz]; [done|].
      by rewrite light_colors_setter_raise in Hret.
    + intros Hz. rewrite light_colors_setter_return by done. eauto.
  - rewrite light_positions_setter_raise, light_colors_setter_raise
      by (unfold some, size; cbn; lia).
    unfold PyErr_Format. rewrite !format_u_size_mismatch. done.
Qed.

(** ** Writes of well-typed values *)

(** What each typed write runs: the native setter itself, or the lambda
    that guards it. *)
Lemma perform_unfold (w : PhongWrite) :
  perform w
  = match w with
    | alpha_mask x => alpha_mask_setter x
    | light_positions l => light_positions_setter l
    | light_colors l => light_colors_setter l
    | _ => native (write_call w)
    end.
Proof.
  unfold perform.
  destruct w; cbn [write_name write_value write_call]; unfold setattr;
    class_lookup; cbn [fset]; unfold cpp_function, cast_vector;
    rewrite ?mapM_cast_Vector3, ?mapM_cast_Color4; reflexivity.
Qed.

(** The outcome of a typed write, spelled out. *)
Lemma perform_outcome (w : PhongWrite) self :
  perform w self
  = if admitted (flags self) (lightCount self) w
    then (Return tt, forward [write_call w] self)
    else match w with
         | alpha_mask _ =>
             (Raise (mkPyErr PyExc_AttributeError
                       "the shader was not created with alpha mask enabled"), self)
         | light_positions l =>
             (Raise (PyErr_Format PyExc_ValueError "expected %u items but got %u"
                       [lightCount self; UnsignedInt (size l)]), self)
         | light_colors l =>
             (Raise (PyErr_Format PyExc_ValueError "expected %u items but got %u"
                       [lightCount self; UnsignedInt (size l)]), self)
         | _ => (Return tt, forward [write_call w] self)
         end.
Proof.
  rewrite perform_unfold, forward_one.
  destruct w; cbn [admitted write_call]; try reflexivity.
  - destruct (Z.land (flags self) Flag.AlphaMask =? 0) eqn:Hz; cbn [negb].
    + apply Z.eqb_eq in Hz. by apply alpha_mask_setter_raise.
    + apply Z.eqb_neq in Hz. by apply alpha_mask_setter_return.
  - destruct (size value =? lightCount self) eqn:Hn.
    + apply Z.eqb_eq in Hn. by apply light_positions_setter_return.
    + apply Z.eqb_neq in Hn. by apply light_positions_setter_raise.
  - destruct (size value =? lightCount self) eqn:Hn.
    + apply Z.eqb_eq in Hn. by apply light_colors_setter_return.
    + apply Z.eqb_neq in Hn. by apply light_colors_setter_raise.
Qed.

(** X6.  Assigning a value of the right type to a uniform property of a
    Phong shader fails for one reason only, its guard: [alpha_mask] without
    the [AlphaMask] flag, a light sequence of the wrong length.  Otherwise,
    and always for the seven other properties, it returns after forwarding
    the corresponding native call.  A failure is never a [TypeError] and
    leaves the shader as it was. *)
Theorem typed_write_outcome (w : PhongWrite) self :
  if admitted (flags self) (lightCount self) w
  then perform w self = (Return tt, forward [write_call w] self)
  else (exists e, perform w self = (Raise e, self)
                  /\ exc_type e <> PyExc_TypeError)
       /\ write_name w ∈ ["alpha_mask"; "light_positions"; "light_colors"].
Proof.
  rewrite perform_outcome.
  destruct (admitted (flags self) (lightCount self) w) eqn:Hadm; [done|].
  destruct w; try discriminate Hadm; cbn [write_name];
    (split; [eexists; split; [reflexivity|done] | set_solver]).
Qed.

Lemma forward_flags (cs : list PhongCall) self :
  flags (forward cs self) = flags self
  /\ lightCount (forward cs self) = lightCount self.
Proof. by rewrite forward_calls. Qed.

Lemma perform_state (w : PhongWrite) self :
  (perform w self).2
  = if admitted (flags self) (lightCount self) w
    then forward [write_call w] self else self.
Proof.
  rewrite perform_outcome.
  destruct (admitted (flags self) (lightCount self) w) eqn:Hadm; [done|].
  destruct w; try discriminate Hadm; reflexivity.
Qed.

(** X7.  A program of well-typed writes does to the shader exactly this:
    it forwards, in program order, the native calls of those writes that
    the construction parameters admit, and nothing for the others. *)
Theorem program_of_typed_writes (ws : list PhongWrite) self :
  run_writes ((fun w => (write_name w, write_value w)) <$> ws) self
  = forward (write_call <$> List.filter (admitted (flags self) (lightCount self)) ws)
      self.
Proof.
  revert self. induction ws as [|w ws IH]; intros self; [done|].
  cbn [fmap list_fmap List.filter].
  change (run_writes ((write_name w, write_value w)
                      :: ((fun w => (write_name w, write_value w)) <$> ws)) self)
    with (run_writes ((fun w => (write_name w, write_value w)) <$> ws)
            (perform w self).2).
  rewrite perform_state, IH.
  destruct (admitted (flags self) (lightCount self) w) eqn:Hadm; [|done].
  destruct (forward_flags [write_call w] self) as [-> ->].
  cbn [fmap list_fmap].
  change (write_call w :: ?l) with ([write_call w] ++ l)%list.
  by rewrite forward_app.
Qed.

(** ** What the read-only properties tell about the guards *)

Lemma land_UnsignedByte_low_bit (x b : Z) :
  0 <= b < 8 ->
  (Z.land (UnsignedByte x) (Z.shiftl 1 b) =? 0) = (Z.land x (Z.shiftl 1 b) =? 0).
Proof.
  intros Hb.
  assert (Hbit : Z.testbit (UnsignedByte x) b = Z.testbit x b).
  { unfold UnsignedByte. rewrite Z.testbit_mod_pow2 by lia.
    replace (b <? 8) with true by (symmetry; apply Z.ltb_lt; lia). done. }
  destruct (Z.testbit x b) eqn:Hx.
  - replace (Z.land x (Z.shiftl 1 b) =? 0) with false.
    + apply Z.eqb_neq. rewrite land_single_bit by lia. congruence.
    + symmetry. apply Z.eqb_neq. rewrite land_single_bit by lia. congruence.
  - replace (Z.land x (Z.shiftl 1 b) =? 0) with true.
    + apply Z.eqb_eq. rewrite land_single_bit by lia. congruence.
    + symmetry. apply Z.eqb_eq. rewrite land_single_bit by lia. congruence.
Qed.

Lemma admitted_by_getters (b : Z) self (w : PhongWrite) :
  0 <= b < 8 -> Flag.AlphaMask = Z.shiftl 1 b ->
  admitted (flags_getter self) (light_count_getter self) w
  = admitted (flags self) (lightCount self) w.
Proof.
  intros Hb HA. destruct w; cbn [admitted]; try reflexivity.
  unfold flags_getter. by rewrite HA, land_UnsignedByte_low_bit.
Qed.

(** X8.  With [AlphaMask] a flag of the low byte, the values that [flags]
    and [light_count] report decide every write: a typed write returns,
    forwarding its native call, exactly when the reported flags contain
    [AlphaMask] (for [alpha_mask]) or the reported light count equals the
    length of the sequence (for the light setters). *)
Theorem read_only_properties_decide_the_guards (b : Z) self (w : PhongWrite) :
  0 <= b < 8 -> Flag.AlphaMask = Z.shiftl 1 b ->
  if admitted (flags_getter self) (light_count_getter self) w
  then perform w self = (Return tt, forward [write_call w] self)
  else exists e, perform w self = (Raise e, self).
Proof.
  intros Hb HA. rewrite (admitted_by_getters b), perform_outcome by done.
  destruct (admitted (flags self) (lightCount self) w) eqn:Hadm; [done|].
  destruct w; try discriminate Hadm; eauto.
Qed.

(** X9.  With [AlphaMask] a flag of the low byte, a shader constructed from
    what [flags] and [light_count] report about another shader reports the
    same two values and gives every typed write the same outcome, error
    included. *)
Theorem rebuilt_shader_behaves_alike (b : Z) self (w : PhongWrite) :
  0 <= b < 8 -> Flag.AlphaMask = Z.shiftl 1 b ->
  flags_getter (rebuilt self) = flags_getter self
  /\ light_count_getter (rebuilt self) = light_count_getter self
  /\ (perform w (rebuilt self)).1 = (perform w self).1.
Proof.
  intros Hb HA.
  assert (Hflags : flags (rebuilt self) = flags_getter self) by done.
  assert (Hcount : lightCount (rebuilt self) = lightCount self) by done.
  split; [|split; [done|]].
  - unfold flags_getter at 1. rewrite Hflags.
    apply UnsignedByte_id, UnsignedByte_range.
  - rewrite !perform_outcome, Hflags, Hcount.
    change (lightCount self) with (light_count_getter self) at 1.
    rewrite (admitted_by_getters b) by done.
    destruct (admitted (flags self) (lightCount self) w); [done|].
    by destruct w.
Qed.

(** ** Writes seen from the store of instances *)

Lemma setattr_vertexColor_atomic (dimensions : Dimensions) (name : string)
    (value : PyObject) (o : VertexColor dimensions) (e : PyErr)
    (o' : VertexColor dimensions) :
  setattr (vertexColor dimensions) name value o = (Raise e, o') -> o' = o.
Proof.
  unfold setattr, vertexColor, chain. cbn [foldl]. unfold def_property.
  rewrite lookup_insert. case_decide.
  - cbn [fset]. unfold cpp_function.
    destruct (cast_MatrixTypeFor dimensions value); [done|].
    unfold throw. congruence.
  - rewrite lookup_empty. unfold throw. congruence.
Qed.

Lemma instance_setattr_raise (name : string) (value : PyObject)
    (o o' : Instance) (e : PyErr) :
  instance_setattr name value o = (Raise e, o') -> o' = o.
Proof.
  unfold instance_setattr. destruct o as [s|s|s].
  - destruct (setattr (vertexColor D2) name value s) as [r s'] eqn:Hs.
    intros [= -> <-]. f_equal. by eapply setattr_vertexColor_atomic.
  - destruct (setattr (vertexColor D3) name value s) as [r s'] eqn:Hs.
    intros [= -> <-]. f_equal. by eapply setattr_vertexColor_atomic.
  - destruct (setattr phong name value s) as [r s'] eqn:Hs.
    intros [= -> <-]. f_equal.
    destruct (setattr_phong_atomic name value s) as [[e' He]|[c Hc]];
      congruence.
Qed.

(** X10.  An attribute assignment that raises, on an instance of any of
    the three classes, leaves the whole store of instances as it was; and
    no assignment, raising or not, creates or removes an instance. *)
Theorem failed_write_leaves_store_unchanged (store store' : gmap nat Instance)
    (id : nat) (name : string) (value : PyObject) (r : Outcome unit) :
  store_setattr id name value store = Some (r, store') ->
  dom store' = dom store
  /\ match r with Raise _ => store' = store | Return _ => True end.
Proof.
  unfold store_setattr. destruct (store !! id) as [o|] eqn:Ho; [|done].
  destruct (instance_setattr name value o) as [r' o'] eqn:Hset.
  intros [= -> <-]. split.
  - rewrite dom_insert_L. apply elem_of_dom_2 in Ho.
    by apply subseteq_union_1_L, singleton_subseteq_l.
  - destruct r as [[]|e]; [done|].
    apply instance_setattr_raise in Hset as ->. by apply insert_id.
Qed.

(** ** Guards do not depend on what was written before *)

(** X12.  Whether a typed write is let through, and the error it raises
    when it is not, are the same after any program of assignments as
    before it: nothing a caller assigns makes a later write succeed or
    fail. *)
Theorem write_outcome_is_history_independent (ws : list (string * PyObject))
    (w : PhongWrite) self :
  (perform w (run_writes ws self)).1 = (perform w self).1.
Proof.
  destruct (run_writes_forward ws self) as (cs & -> & _).
  rewrite !perform_outcome.
  destruct (forward_flags cs self) as [-> ->].
  destruct (admitted (flags self) (lightCount self) w); [done|].
  by destruct w.
Qed.

(** ** The vertex color shaders *)

(** X13.  On a [VertexColor2D] or [VertexColor3D] shader an assignment
    that raises leaves the shader as it was, and the only assignment that
    returns is one to [transformation_projection_matrix]: it has forwarded
    exactly one [setTransformationProjectionMatrix] call, with the matrix
    the value converts to. *)
Theorem vertex_color_write_is_atomic (dimensions : Dimensions) (name : string)
    (value : PyObject) (o o' : VertexColor dimensions) (r : Outcome unit) :
  setattr (vertexColor dimensions) name value o = (r, o') ->
  match r with
  | Raise _ => o' = o
  | Return _ =>
      name = "transformation_projection_matrix"
      /\ exists matrix,
           cast_MatrixTypeFor dimensions value = Some matrix
           /\ o' = mkVertexColor
                     (vc_calls o ++ [SetTransformationProjectionMatrix matrix])
  end.
Proof.
  destruct r as [[]|e]; [|apply setattr_vertexColor_atomic].
  unfold setattr, vertexColor, chain. cbn [foldl]. unfold def_property.
  rewrite lookup_insert. case_decide as Hname.
  - cbn [fset]. unfold cpp_function.
    destruct (cast_MatrixTypeFor dimensions value) as [matrix|]; [|done].
    unfold setTransformationProjectionMatrix. intros [= <-]. eauto.
  - rewrite lookup_empty. done.
Qed.

End Further.

(** * The further properties on sample shaders *)

Section FurtherExamples.
Local Existing Instance raw_payload.
Local Existing Instance sample_flags.

(** A shader with two lights refuses the empty list of positions. *)
Lemma zero_lights_and_empty_sequences_witness :
  let none := Phong_init None (Some 0) in
  let some := Phong_init None (Some 2) in
  2 <> 0
  /\ light_positions_setter [] none
     = (Return tt, forward [SetLightPositions []] none)
  /\ light_positions_setter [] some
     = (Raise (mkPyErr PyExc_ValueError "expected 2 items but got 0"), some).
Proof.
  intros none some.
  assert (Hn : 2 <> 0) by lia.
  destruct (zero_lights_and_empty_sequences (P := raw_payload) None 2 [] [] Hn)
    as (_ & _ & Hpos & _).
  split; [exact Hn|]. split; [reflexivity|exact Hpos].
Defined.

(** Assigning a string of lights of the wrong length changes nothing,
    assigning the shininess forwards one call. *)
Lemma property_write_is_atomic_witness :
  let self := Phong_init None (Some 2) in
  let e := mkPyErr PyExc_ValueError "expected 2 items but got 0" in
  setattr phong "light_colors" (PyList []) self = (Raise e, self)
  /\ setattr phong "shininess" (PyFloat 80) self
     = (Return tt, forward [SetShininess 80] self)
  /\ exists c, forward [SetShininess 80] self = forward [c] self.
Proof.
  intros self e.
  assert (Hraise : setattr phong "light_colors" (PyList []) self = (Raise e, self))
    by (vm_compute; reflexivity).
  assert (Hret : setattr phong "shininess" (PyFloat 80) self
                 = (Return tt, forward [SetShininess 80] self))
    by (vm_compute; reflexivity).
  split; [exact Hraise|]. split; [exact Hret|].
  exact (property_write_is_atomic (P := raw_payload) (F := sample_flags)
           "shininess" _ self (Return tt) _ Hret).
Defined.

(** A shader built with [ALPHA_MASK | VERTEX_COLOR]: the reported flags
    admit an [alpha_mask] write, and the write goes through. *)
Lemma read_only_properties_decide_the_guards_witness :
  let self := Phong_init (Some (Z.lor Flag.AlphaMask Flag.VertexColor)) None in
  0 <= 3 < 8 /\ Flag.AlphaMask = Z.shiftl 1 3
  /\ admitted (flags_getter self) (light_count_getter self) (alpha_mask 5) = true
  /\ perform (alpha_mask 5) self = (Return tt, forward [SetAlphaMask 5] self).
Proof.
  intros self.
  assert (Hb : 0 <= 3 < 8) by lia.
  assert (HA : Flag.AlphaMask = Z.shiftl 1 3) by reflexivity.
  assert (Hadm : admitted (flags_getter self) (light_count_getter self)
                   (alpha_mask 5) = true) by reflexivity.
  pose proof (read_only_properties_decide_the_guards (P := raw_payload)
                (F := sample_flags) 3 self (alpha_mask 5) Hb HA) as Hout.
  rewrite Hadm in Hout.
  split; [exact Hb|]. split; [exact HA|]. split; [exact Hadm|exact Hout].
Defined.

(** A shader with a flag word beyond the byte, and the one rebuilt from
    what it reports. *)
Lemma rebuilt_shader_behaves_alike_witness :
  let self := Phong_new (Z.lor (Z.shiftl 1 8) Flag.AlphaMask) 3 in
  0 <= 3 < 8 /\ Flag.AlphaMask = Z.shiftl 1 3
  /\ rebuilt self = Phong_new Flag.AlphaMask 3
  /\ flags_getter (rebuilt self) = flags_getter self
  /\ (perform (light_colors []) (rebuilt self)).1
     = (perform (light_colors []) self).1.
Proof.
  intros self.
  assert (Hb : 0 <= 3 < 8) by lia.
  assert (HA : Flag.AlphaMask = Z.shiftl 1 3) by reflexivity.
  destruct (rebuilt_shader_behaves_alike (P := raw_payload) (F := sample_flags)
              3 self (light_colors []) Hb HA) as (Hflags & _ & Hout).
  split; [exact Hb|]. split; [exact HA|]. split; [reflexivity|].
  split; [exact Hflags|exact Hout].
Defined.

(** A Phong shader without [ALPHA_MASK] as instance 0, next to a 2D
    vertex color shader as instance 1. *)
Lemma failed_write_leaves_store_unchanged_witness :
  let store : gmap nat Instance :=
    <[1%nat := VertexColor2D (VertexColor_init D2)]>
      (<[0%nat := PhongShader (Phong_init None None)]> ∅) in
  let e := mkPyErr PyExc_AttributeError
             "the shader was not created with alpha mask enabled" in
  store_setattr 0 "alpha_mask" (PyFloat 5) store = Some (Raise e, store).
Proof.
  intros store e.
  assert (Hset : exists store',
            store_setattr 0 "alpha_mask" (PyFloat 5) store = Some (Raise e, store')).
  { eexists. vm_compute. reflexivity. }
  destruct Hset as [store' Hset].
  destruct (failed_write_leaves_store_unchanged (P := raw_payload)
              (F := sample_flags) store store' 0 "alpha_mask" _
              (Raise e) Hset) as [_ Hsame].
  rewrite Hset, Hsame. reflexivity.
Defined.

(** A 4x4 matrix assigned to a 3D vertex color shader. *)
Lemma vertex_color_write_is_atomic_witness :
  let o := VertexColor_init D3 in
  let m4 : Matrix4 := [1; 0; 0; 0; 0; 1; 0; 0; 0; 0; 1; 0; 0; 0; 0; 1] in
  let o' := mkVertexColor
              [SetTransformationProjectionMatrix (m4 : MatrixTypeFor D3)] in
  setattr (vertexColor D3) "transformation_projection_matrix" (PyMatrix4 m4) o
  = (Return tt, o')
  /\ exists matrix,
       cast_MatrixTypeFor D3 (PyMatrix4 m4) = Some matrix
       /\ o' = mkVertexColor
                 (vc_calls o ++ [SetTransformationProjectionMatrix matrix]).
Proof.
  intros o m4 o'.
  assert (Hset : setattr (vertexColor D3) "transformation_projection_matrix"
                   (PyMatrix4 m4) o = (Return tt, o'))
    by (vm_compute; reflexivity).
  destruct (vertex_color_write_is_atomic (P := raw_payload) D3
              "transformation_projection_matrix" _ o o'
              (Return tt) Hset) as [_ Hcall].
  split; [exact Hset|exact Hcall].
Defined.

End FurtherExamples.
